(** * The Bing chat clone notebook (08-BingChatClone.ipynb)

    A shallow embedding of the notebook's own code: the rendering helper
    [printmd], the environment mapping cell, the tool class [MyBingSearch]
    with its synchronous and asynchronous entry points, and the two retry
    loops around [agent_executor.run].  The libraries the notebook calls
    (the chat client, the agent executor, the Bing wrapper, the display
    routine) are not part of the notebook: they are taken as parameters,
    and every call to one of them leaves an event in a trace. *)

From Stdlib Require Import ZArith String Ascii List Lia Bool.
From stdpp Require Import gmap strings list.

Local Open Scope string_scope.
Local Open Scope Z_scope.

(** ** Python exceptions *)

Module Exc.

(** The classes the notebook can meet: the builtin hierarchy above and
    below [Exception], and the classes of the libraries it calls. *)
Inductive PyClass : Type :=
| BaseException
| Exception
| KeyboardInterrupt
| SystemExit
| GeneratorExit
| RuntimeError
| NotImplementedError
| NameError
| LookupError
| KeyError
| ValueError
| OSError
| ConnectionError
| TimeoutError
| ValidationError          (* pydantic *)
| OutputParserException    (* langchain *)
| HTTPError                (* requests *)
| AuthenticationError.     (* openai *)

(** The direct base class; [BaseException] is the root. *)
Definition base (c : PyClass) : option PyClass :=
  match c with
  | BaseException => None
  | Exception | KeyboardInterrupt | SystemExit | GeneratorExit => Some BaseException
  | RuntimeError | NameError | LookupError | ValueError | OSError
  | AuthenticationError => Some Exception
  | NotImplementedError => Some RuntimeError
  | KeyError => Some LookupError
  | ConnectionError | TimeoutError | HTTPError => Some OSError
  | ValidationError | OutputParserException => Some ValueError
  end.

Definition class_eqb (c d : PyClass) : bool :=
  match c, d with
  | BaseException, BaseException | Exception, Exception
  | KeyboardInterrupt, KeyboardInterrupt | SystemExit, SystemExit
  | GeneratorExit, GeneratorExit | RuntimeError, RuntimeError
  | NotImplementedError, NotImplementedError | NameError, NameError
  | LookupError, LookupError | KeyError, KeyError | ValueError, ValueError
  | OSError, OSError | ConnectionError, ConnectionError
  | TimeoutError, TimeoutError | ValidationError, ValidationError
  | OutputParserException, OutputParserException | HTTPError, HTTPError
  | AuthenticationError, AuthenticationError => true
  | _, _ => false
  end.

(** [issubclass c d]: walk up from [c]; the hierarchy is four deep. *)
Fixpoint climbs (fuel : nat) (c d : PyClass) : bool :=
  class_eqb c d ||
  match fuel with
  | O => false
  | S fuel' => match base c with
               | Some b => climbs fuel' b d
               | None => false
               end
  end.

Definition issubclass (c d : PyClass) : bool := climbs 4 c d.

(** An exception object: its class and the text [str(e)] gives. *)
Record PyExc : Type := mkExc { exc_class : PyClass; exc_str : string }.

Definition isinstance (e : PyExc) (c : PyClass) : bool :=
  issubclass (exc_class e) c.

Definition str (e : PyExc) : string := exc_str e.

(** [KeyError(key)] prints as the repr of its key. *)
Definition key_error (key : string) : PyExc :=
  mkExc KeyError ("'" ++ key ++ "'").

Definition name_error (name : string) : PyExc :=
  mkExc NameError ("name '" ++ name ++ "' is not defined").

End Exc.
Export Exc.

(** ** Computations that change a state and may raise *)

Inductive Outcome (A : Type) : Type :=
| Returned (a : A)
| Raised (e : PyExc).
Arguments Returned {A} a.
Arguments Raised {A} e.

Definition Py (S A : Type) : Type := S -> Outcome A * S.

Definition ret {S A} (a : A) : Py S A := fun s => (Returned a, s).

Definition raise {S A} (e : PyExc) : Py S A := fun s => (Raised e, s).

Definition bind {S A B} (m : Py S A) (f : A -> Py S B) : Py S B :=
  fun s => match m s with
           | (Returned a, s') => f a s'
           | (Raised e, s') => (Raised e, s')
           end.

Notation "x <- m ;; k" := (bind m (fun x => k))
  (at level 100, m at next level, right associativity).
Notation "m ;;; k" := (bind m (fun _ => k))
  (at level 100, right associativity).

Definition modify {S} (f : S -> S) : Py S unit := fun s => (Returned tt, f s).

(** [try: body / except cls as e: handler e]; a fault of another class
    goes through, and the state the body left is kept either way. *)
Definition try_except {S A} (body : Py S A) (cls : PyClass)
    (handler : PyExc -> Py S A) : Py S A :=
  fun s => match body s with
           | (Returned a, s') => (Returned a, s')
           | (Raised e, s') =>
               if isinstance e cls then handler e s' else (Raised e, s')
           end.

(** How a loop body ends when it does not raise. *)
Inductive Flow : Type := Break | Continue.

(** [for i in iter: body i], without an [else] clause. *)
Fixpoint for_in {S I} (iter : list I) (body : I -> Py S Flow) : Py S unit :=
  match iter with
  | [] => ret tt
  | i :: rest => fun s =>
      match body i s with
      | (Returned Break, s') => (Returned tt, s')
      | (Returned Continue, s') => for_in rest body s'
      | (Raised e, s') => (Raised e, s')
      end
  end.

Definition range (n : nat) : list Z := map Z.of_nat (seq 0 n).

(** ** [str.replace] *)

Module PyStr.

Fixpoint startswith (s p : string) {struct p} : bool :=
  match p, s with
  | EmptyString, _ => true
  | String _ _, EmptyString => false
  | String a p', String b s' => Ascii.eqb a b && startswith s' p'
  end.

(** Left to right, occurrences that do not overlap: at a match the new
    text is written and the rest of the match ([skip] characters) is
    passed over.  [old] is not empty. *)
Fixpoint replace_from (old new : string) (skip : nat) (s : string) : string :=
  match s with
  | EmptyString => EmptyString
  | String c rest =>
      match skip with
      | S n => replace_from old new n rest
      | O => if startswith s old
             then new ++ replace_from old new (String.length old - 1) rest
             else String c (replace_from old new O rest)
      end
  end.

(** With an empty [old] Python writes [new] before every character and
    at the end. *)
Fixpoint intersperse (new s : string) : string :=
  match s with
  | EmptyString => new
  | String c rest => new ++ String c (intersperse new rest)
  end.

Definition replace (s old new : string) : string :=
  match old with
  | EmptyString => intersperse new s
  | String _ _ => replace_from old new O s
  end.

End PyStr.

(** ** Rendering, as the specification words it *)

Module Render.

(** Each dollar sign becomes the text USD and a space, every other
    character stays. *)
Fixpoint dollar_to_USD (s : string) : string :=
  match s with
  | EmptyString => EmptyString
  | String c rest =>
      if Ascii.eqb "$"%char c then "USD " ++ dollar_to_USD rest
      else String c (dollar_to_USD rest)
  end.

Fixpoint has_char (c : ascii) (s : string) : bool :=
  match s with
  | EmptyString => false
  | String d rest => Ascii.eqb c d || has_char c rest
  end.

End Render.

(** ** The world the notebook runs in *)

(** A search hit as the Bing wrapper hands it over: a Python dict. *)
Abbreviation Dict := (gmap string string).

(** Calls that leave the notebook, in the order they happen. *)
Inductive Event : Type :=
| EvChatClient (streaming : bool)                   (* AzureChatOpenAI(...) *)
| EvInitAgent (tool_names : list string)            (* initialize_agent(tools, llm, ...) *)
| EvBingWrapper (k : Z)                             (* BingSearchAPIWrapper(k=...) *)
| EvBingResults (query : string) (num_results : Z)  (* bing.results(query, num_results=...) *)
| EvAgentRun (question : string)                    (* agent_executor.run(question) *)
| EvDisplay (markdown : string)                     (* display(Markdown(...)) *)
| EvRaised (e : PyExc).                             (* the call just logged raised e *)

(** What the agent does with one question, as far as the notebook can
    see it: it answers, it raises, or it calls a tool by name and goes on
    from what the tool gave ([None] when no tool has that name). *)
Inductive AgentPlan : Type :=
| Final (answer : string)
| Fault (e : PyExc)
| Act (tool : string) (query : string)
      (next : option (Outcome (list Dict)) -> AgentPlan).

(** The libraries behind the notebook.  [X] is whatever they depend on
    outside the process (network, services, the model's sampling), [B] a
    constructed Bing wrapper.  Constructors read the process environment. *)
Record Externals : Type := {
  X : Type;
  B : Type;
  AzureChatOpenAI : bool -> gmap string string -> X -> Outcome unit * X;
  initialize_agent : list string -> X -> Outcome unit * X;
  BingSearchAPIWrapper : Z -> gmap string string -> X -> Outcome B * X;
  results : B -> string -> Z -> X -> Outcome (list Dict) * X;
  plan : string -> X -> AgentPlan * X;
  prompt_template : string
}.

Section Notebook.

Variable E : Externals.

(** The process environment, the trace of outside calls, the outside. *)
Record World : Type := mkWorld {
  environ : gmap string string;
  trace : list Event;
  outside : X E
}.

Definition log (ev : Event) (w : World) : World :=
  mkWorld (environ w) (trace w ++ [ev]) (outside w).

Definition set_outside (x : X E) (w : World) : World :=
  mkWorld (environ w) (trace w) x.

Definition set_environ (env : gmap string string) (w : World) : World :=
  mkWorld env (trace w) (outside w).

(** An outside call: the event is logged, the library answers, and a
    fault it raises is logged behind the call. *)
Definition call {A} (ev : Event) (f : X E -> Outcome A * X E) : Py World A :=
  fun w => match f (outside w) with
           | (Returned a, x') => (Returned a, set_outside x' (log ev w))
           | (Raised e, x') =>
               (Raised e, set_outside x' (log (EvRaised e) (log ev w)))
           end.

(** [display(Markdown(text))]: the event records the text handed to the
    display routine; what the routine then does with it (and whether it
    fails there) is outside this development. *)
Definition display_Markdown (text : string) : Py World unit :=
  modify (log (EvDisplay text)).

(** [def printmd(string)] *)
Definition printmd (string : string) : Py World unit :=
  display_Markdown (PyStr.replace string "$" "USD ").

(** [os.environ[key]] and [os.environ[key] = value] *)
Definition environ_getitem (key : string) : Py World string :=
  fun w => match environ w !! key with
           | Some v => (Returned v, w)
           | None => (Raised (key_error key), w)
           end.

Definition environ_setitem (key value : string) : Py World unit :=
  modify (fun w => set_environ (<[key := value]> (environ w)) w).

(** The cell that maps the Azure variable names to the ones the chat
    client reads. *)
Definition cell_environment : Py World unit :=
  (v <- environ_getitem "AZURE_OPENAI_ENDPOINT" ;;
   environ_setitem "OPENAI_API_BASE" v) ;;;
  (v <- environ_getitem "AZURE_OPENAI_API_KEY" ;;
   environ_setitem "OPENAI_API_KEY" v) ;;;
  (v <- environ_getitem "AZURE_OPENAI_API_VERSION" ;;
   environ_setitem "OPENAI_API_VERSION" v) ;;;
  environ_setitem "OPENAI_API_TYPE" "azure".

(** The cell that builds the chat client: both assignments to [llm] run,
    the second with [streaming=True]. *)
Definition cell_llm : Py World unit :=
  (fun w => call (EvChatClient false) (AzureChatOpenAI E false (environ w)) w) ;;;
  (fun w => call (EvChatClient true) (AzureChatOpenAI E true (environ w)) w).

(** ** The tool class *)

Record MyBingSearch : Type := mkTool {
  name : string;
  description : string;
  k : Z
}.

(** The newline that ends the description. *)
Definition LF : string := String (ascii_of_nat 10) EmptyString.

(** [MyBingSearch(k=...)]; without the argument [k] is 5. *)
Definition MyBingSearch_new (k_arg : option Z) : MyBingSearch :=
  mkTool "@bing"
         ("useful when the questions includes the term: @bing." ++ LF)
         (match k_arg with Some n => n | None => 5 end).

(** A method runs on its receiver and the world. *)
Definition Method (A : Type) : Type := Py (MyBingSearch * World) A.

Definition getattr {A} (field : MyBingSearch -> A) : Method A :=
  fun s => (Returned (field (fst s)), s).

Definition in_world {A} (m : Py World A) : Method A :=
  fun s => let (o, w') := m (snd s) in (o, (fst s, w')).

(** [def _run(self, query)] *)
Definition _run (query : string) : Method (list Dict) :=
  k0 <- getattr k ;;
  bing <- in_world (fun w =>
            call (EvBingWrapper k0) (BingSearchAPIWrapper E k0 (environ w)) w) ;;
  k1 <- getattr k ;;
  in_world (call (EvBingResults query k1) (results E bing query k1)).

(** [async def _arun(self, query)]: the body, run when the coroutine is
    awaited. *)
Definition _arun (query : string) : Method string :=
  raise (mkExc NotImplementedError "This Tool does not support async").

(** ** The notebook's globals, and the agent *)

Record Session : Type := mkSession {
  world : World;
  tools : list MyBingSearch;
  response : option string
}.

Definition set_world (w : World) (s : Session) : Session :=
  mkSession w (tools s) (response s).

Definition set_tools (ts : list MyBingSearch) (s : Session) : Session :=
  mkSession (world s) ts (response s).

Definition set_response (r : string) (s : Session) : Session :=
  mkSession (world s) (tools s) (Some r).

Definition lift {A} (m : Py World A) : Py Session A :=
  fun s => let (o, w') := m (world s) in (o, set_world w' s).

(** The first tool of that name, with its place in the list. *)
Fixpoint find_tool (tool : string) (i : nat) (ts : list MyBingSearch)
    : option (nat * MyBingSearch) :=
  match ts with
  | [] => None
  | t :: rest => if String.eqb (name t) tool then Some (i, t)
                 else find_tool tool (S i) rest
  end.

(** The agent follows its plan; a tool call runs [_run] on the tool
    object held in [tools]. *)
Fixpoint follow (p : AgentPlan) : Py Session string :=
  match p with
  | Final answer => ret answer
  | Fault e => raise e
  | Act tool query next => fun s =>
      match find_tool tool O (tools s) with
      | None => follow (next None) s
      | Some (i, t) =>
          match _run query (t, world s) with
          | (o, (t', w')) =>
              follow (next (Some o))
                     (set_tools (<[i := t']> (tools s)) (set_world w' s))
          end
      end
  end.

(** [agent_executor.run(question)] *)
Definition agent_executor_run (question : string) : Py Session string :=
  p <- lift (call (EvAgentRun question)
                   (fun x => let (p, x') := plan E question x in
                             (Returned p, x'))) ;;
  follow p.

(** The cell that builds the tool list and the agent. *)
Definition cell_agent : Py Session unit :=
  modify (set_tools [MyBingSearch_new (Some 5)]) ;;;
  (fun s => lift (call (EvInitAgent (map name (tools s)))
                       (initialize_agent E (map name (tools s)))) s).

(** The retry cell: [for i in range(n): try: response = run(QUESTION);
    break / except Exception as e: response = str(e); continue]. *)
Definition retry_body (QUESTION : string) : Z -> Py Session Flow :=
  fun _ =>
    try_except
      (r <- agent_executor_run QUESTION ;;
       modify (set_response r) ;;;
       ret Break)
      Exception
      (fun e =>
         modify (set_response (str e)) ;;;
         ret Continue).

Definition retry_cell (n : nat) (QUESTION : string) : Py Session unit :=
  for_in (range n) (retry_body QUESTION).

(** [printmd(response)] as a cell: the global may be unbound. *)
Definition cell_print : Py Session unit :=
  fun s => match response s with
           | Some r => lift (printmd r) s
           | None => (Raised (name_error "response"), s)
           end.

Definition QUESTION_1 : string :=
  "Create a list with the main facts on What is happening with the oil supply in the world right now?".

Definition QUESTION_2 : string :=
  "in target.com, find how what's the price of a Nesspresso coffee machine and of a Keurig coffee machine".

(** The notebook run from top to bottom; a fault that no handler takes
    ends the run. *)
Definition notebook : Py Session unit :=
  lift cell_environment ;;;
  lift cell_llm ;;;
  cell_agent ;;;
  retry_cell 2 QUESTION_1 ;;;
  cell_print ;;;
  retry_cell 3 QUESTION_2 ;;;
  cell_print ;;;
  lift (printmd (prompt_template E)).

(** ** Notions the statements below are written in *)

(** The world after some more outside calls. *)
Definition logged (evs : list Event) (x : X E) (w : World) : World :=
  mkWorld (environ w) (trace w ++ evs) x.

(** How many agent runs a trace holds. *)
Fixpoint runs (t : list Event) : nat :=
  match t with
  | [] => O
  | EvAgentRun _ :: t' => S (runs t')
  | _ :: t' => runs t'
  end.

(** How many searches a trace holds. *)
Fixpoint searches (t : list Event) : nat :=
  match t with
  | [] => O
  | EvBingResults _ _ :: t' => S (searches t')
  | _ :: t' => searches t'
  end.

Definition put_response (r : option string) (s : Session) : Session :=
  mkSession (world s) (tools s) r.

(** The session after [n] consecutive calls of [agent_executor.run(q)],
    and what the call number [i] (from 0) does. *)
Fixpoint after_runs (q : string) (n : nat) (s : Session) : Session :=
  match n with
  | O => s
  | S n' => after_runs q n' (snd (agent_executor_run q s))
  end.

Definition attempt (q : string) (i : nat) (s : Session) : Outcome string :=
  fst (agent_executor_run q (after_runs q i s)).

(** The global [response] after [j] caught faults [es 0 .. es (j-1)]. *)
Definition after_faults (r : option string) (j : nat) (es : nat -> PyExc)
    : option string :=
  match j with
  | O => r
  | S m => Some (str (es m))
  end.

(** A session that differs from [s] only by outside calls that are not
    agent runs. *)
Definition quiet_step (s s' : Session) : Prop :=
  tools s' = tools s /\
  response s' = response s /\
  environ (world s') = environ (world s) /\
  exists d, trace (world s') = (trace (world s) ++ d)%list /\ runs d = O.

(** Calls of the tool's two entry points, one after the other. *)
Inductive Invocation : Type :=
| Sync (query : string)
| Async (query : string).

Definition invoke (c : Invocation) (st : MyBingSearch * World)
    : MyBingSearch * World :=
  match c with
  | Sync query => snd (_run query st)
  | Async query => snd (_arun query st)
  end.

Definition invoke_all (cs : list Invocation) (st : MyBingSearch * World)
    : MyBingSearch * World :=
  fold_left (fun st c => invoke c st) cs st.








(** The variables the environment cell reads. *)
Definition azure_keys : list string :=
  ["AZURE_OPENAI_ENDPOINT"; "AZURE_OPENAI_API_KEY"; "AZURE_OPENAI_API_VERSION"].

(** The two composition cells in front of the agent. *)
Definition composition : Py Session unit :=
  lift cell_environment ;;; lift cell_llm.

(** ** Further measures of a trace, and the notebook in two halves *)

(** How many Bing wrappers a trace shows being built. *)
Fixpoint wrappers (t : list Event) : nat :=
  match t with
  | [] => O
  | EvBingWrapper _ :: t' => S (wrappers t')
  | _ :: t' => wrappers t'
  end.

(** The texts a trace shows on display, in order. *)
Fixpoint displayed (t : list Event) : list string :=
  match t with
  | [] => []
  | EvDisplay text :: t' => text :: displayed t'
  | _ :: t' => displayed t'
  end.

(** The events an agent run can leave. *)
Definition agent_event (ev : Event) : bool :=
  match ev with
  | EvAgentRun _ | EvBingWrapper _ | EvBingResults _ _ | EvRaised _ => true
  | _ => false
  end.

(** How many dollar signs a text has. *)
Fixpoint dollars (s : string) : nat :=
  match s with
  | EmptyString => O
  | String c rest =>
      if Ascii.eqb "$"%char c then S (dollars rest) else dollars rest
  end.

(** How many of the invocations are synchronous. *)
Fixpoint syncs (cs : list Invocation) : nat :=
  match cs with
  | [] => O
  | Sync _ :: cs' => S (syncs cs')
  | Async _ :: cs' => syncs cs'
  end.

(** The variables the environment cell writes. *)
Definition openai_keys : list string :=
  ["OPENAI_API_BASE"; "OPENAI_API_KEY"; "OPENAI_API_VERSION"; "OPENAI_API_TYPE"].

(** The cells up to the agent, and the cells that ask and print. *)
Definition setup : Py Session unit :=
  composition ;;; cell_agent.

Definition answering : Py Session unit :=
  retry_cell 2 QUESTION_1 ;;;
  cell_print ;;;
  retry_cell 3 QUESTION_2 ;;;
  cell_print ;;;
  lift (printmd (prompt_template E)).

(** From [s] to [s'] the trace has grown by at most [nr] agent runs and
    [nd] displays, and no displayed text has a dollar sign. *)
Definition within (nr nd : nat) (s s' : Session) : Prop :=
  exists d,
    trace (world s') = (trace (world s) ++ d)%list /\
    (runs d <= nr)%nat /\
    (length (displayed d) <= nd)%nat /\
    Forall (fun text => Render.has_char "$"%char text = false) (displayed d).

End Notebook.

(** ** A scripted outside, for running the notebook on concrete inputs *)

Module Script.

(** The outside is a list of plans, one per agent run; the Bing wrapper
    wants its key in the environment, as the chat client wants its own. *)
Definition hit (title snippet url : string) : Dict :=
  <["title" := title]> (<["snippet" := snippet]> (<["url" := url]> ∅)).

Definition hits : list Dict :=
  [ hit "Oil market report" "Supply tightens" "https://example.org/a";
    hit "Crude prices" "Brent at $100" "https://example.org/b" ].

Definition missing_key : PyExc :=
  mkExc ValidationError "Did not find bing_subscription_key".

Definition parse_fault : PyExc :=
  mkExc OutputParserException "Could not parse LLM output".

Definition refused : PyExc :=
  mkExc HTTPError "401 Client Error: PermissionDenied".

Definition interrupt : PyExc := mkExc KeyboardInterrupt "".

Definition scripted (backend : string -> Z -> Outcome (list Dict)) : Externals :=
  {| X := list AgentPlan;
     B := Z;
     AzureChatOpenAI := fun _ env x =>
       match env !! "OPENAI_API_KEY" with
       | Some _ => (Returned tt, x)
       | None => (Raised (mkExc ValidationError "Did not find openai_api_key"), x)
       end;
     initialize_agent := fun _ x => (Returned tt, x);
     BingSearchAPIWrapper := fun k0 env x =>
       match env !! "BING_SUBSCRIPTION_KEY" with
       | Some _ => (Returned k0, x)
       | None => (Raised missing_key, x)
       end;
     results := fun _ q n x => (backend q n, x);
     plan := fun _ x =>
       match x with
       | [] => (Fault parse_fault, [])
       | p :: rest => (p, rest)
       end;
     prompt_template := "Answer with sources. Budget: $0." |}.

(** A backend that serves the first [n] hits, and one that refuses. *)
Definition serving (q : string) (n : Z) : Outcome (list Dict) :=
  Returned (take (Z.to_nat n) hits).

Definition refusing (q : string) (n : Z) : Outcome (list Dict) :=
  Raised refused.

(** An agent that searches once and lets a tool fault through. *)
Definition search_then_answer (query answer : string) : AgentPlan :=
  Act "@bing" query (fun o =>
    match o with
    | Some (Raised e) => Fault e
    | _ => Final answer
    end).

Definition azure_env : gmap string string :=
  <["AZURE_OPENAI_ENDPOINT" := "https://x.openai.azure.com"]>
  (<["AZURE_OPENAI_API_KEY" := "secret"]>
  (<["AZURE_OPENAI_API_VERSION" := "2023-05-15"]> ∅)).

Definition full_env : gmap string string :=
  <["BING_SUBSCRIPTION_KEY" := "secret"]> azure_env.

Definition start (E : Externals) (env : gmap string string) (x : X E)
    : Session E :=
  mkSession E (mkWorld E env [] x) [] None.

(** The session once the agent cell has run. *)
Definition ready (E : Externals) (env : gmap string string) (x : X E)
    : Session E :=
  mkSession E (mkWorld E env [] x) [MyBingSearch_new (Some 5)] None.

Definition E_serving : Externals := scripted serving.
Definition E_refusing : Externals := scripted refusing.

Definition bare_world (E : Externals) (x : X E) : World E :=
  mkWorld E full_env [] x.











End Script.


(** * Properties *)

(** ** The embedding on small inputs *)

Module Samples.
Import Script.

Example replace_every_dollar :
  PyStr.replace "a$100 $$b" "$" "USD " = "aUSD 100 USD USD b".
Proof. reflexivity. Qed.

Example replace_does_not_overlap : PyStr.replace "aaa" "aa" "b" = "ba".
Proof. reflexivity. Qed.

Example replace_empty_pattern : PyStr.replace "abc" "" "-" = "-a-b-c-".
Proof. reflexivity. Qed.

Example interrupt_is_no_Exception :
  isinstance interrupt Exception = false /\
  isinstance interrupt BaseException = true /\
  isinstance missing_key Exception = true /\
  isinstance (key_error "AZURE_OPENAI_API_KEY") Exception = true.
Proof. repeat split. Qed.

Example key_error_text :
  str (key_error "AZURE_OPENAI_API_KEY") = "'AZURE_OPENAI_API_KEY'".
Proof. reflexivity. Qed.

(** The whole notebook with every key in place: the first cell answers
    at once, the second meets three outputs that do not parse. *)
Example notebook_trace :
  let r := notebook E_serving
             (start E_serving full_env
                [search_then_answer "oil supply" "Brent is at $100."]) in
  fst r = Returned tt /\
  trace E_serving (world E_serving (snd r)) =
    [EvChatClient false; EvChatClient true; EvInitAgent ["@bing"];
     EvAgentRun QUESTION_1; EvBingWrapper 5; EvBingResults "oil supply" 5;
     EvDisplay "Brent is at USD 100.";
     EvAgentRun QUESTION_2; EvAgentRun QUESTION_2; EvAgentRun QUESTION_2;
     EvDisplay "Could not parse LLM output";
     EvDisplay "Answer with sources. Budget: USD 0."].
Proof. vm_compute. split; reflexivity. Qed.

(** Without the Azure endpoint nothing is called at all. *)
Example notebook_without_endpoint :
  let r := notebook E_serving (start E_serving ∅ []) in
  fst r = Raised (key_error "AZURE_OPENAI_ENDPOINT") /\
  trace E_serving (world E_serving (snd r)) = [].
Proof. vm_compute. split; reflexivity. Qed.

End Samples.

(** ** Rendering *)

Module RenderFacts.
Import Render.

Lemma replace_dollar (s : string) :
  PyStr.replace s "$" "USD " = dollar_to_USD s.
Proof.
  unfold PyStr.replace.
  induction s as [| c rest IH]; [reflexivity |].
  cbn [PyStr.replace_from PyStr.startswith dollar_to_USD String.length Nat.sub].
  rewrite andb_true_r.
  destruct (Ascii.eqb "$"%char c); rewrite IH; reflexivity.
Qed.

Lemma append_cons (c : ascii) (a b : string) :
  String c a ++ b = String c (a ++ b).
Proof. reflexivity. Qed.

Lemma append_assoc (a b c : string) : (a ++ b) ++ c = a ++ (b ++ c).
Proof.
  induction a as [| x a IH]; [reflexivity |].
  rewrite !append_cons, IH. reflexivity.
Qed.

Lemma dollar_to_USD_app (a b : string) :
  dollar_to_USD (a ++ b) = dollar_to_USD a ++ dollar_to_USD b.
Proof.
  induction a as [| c a IH]; [reflexivity |].
  rewrite append_cons. cbn [dollar_to_USD].
  destruct (Ascii.eqb "$"%char c); rewrite IH.
  - symmetry. apply append_assoc.
  - reflexivity.
Qed.

Lemma has_char_app (c : ascii) (a b : string) :
  has_char c (a ++ b) = has_char c a || has_char c b.
Proof.
  induction a as [| d a IH]; [reflexivity |].
  rewrite append_cons. cbn [has_char]. rewrite IH. apply orb_assoc.
Qed.

Lemma dollar_to_USD_clean (s : string) :
  has_char "$"%char (dollar_to_USD s) = false.
Proof.
  induction s as [| c rest IH]; [reflexivity |].
  cbn [dollar_to_USD].
  destruct (Ascii.eqb "$"%char c) eqn:Hc.
  - rewrite has_char_app, IH. reflexivity.
  - cbn [has_char]. rewrite Hc, IH. reflexivity.
Qed.

End RenderFacts.

Section ToolFacts.

Variable E : Externals.

(** ** The tool's entry points *)

(** [_run] is two outside calls in a row and nothing else. *)
Lemma _run_unfold (query : string) (self : MyBingSearch) (w : World E) :
  _run E query (self, w) =
  match BingSearchAPIWrapper E (k self) (environ E w) (outside E w) with
  | (Raised e, x1) =>
      (Raised e, (self, logged E [EvBingWrapper (k self); EvRaised e] x1 w))
  | (Returned bing, x1) =>
      match results E bing query (k self) x1 with
      | (Returned rs, x2) =>
          (Returned rs,
           (self, logged E [EvBingWrapper (k self);
                            EvBingResults query (k self)] x2 w))
      | (Raised e, x2) =>
          (Raised e,
           (self, logged E [EvBingWrapper (k self);
                            EvBingResults query (k self); EvRaised e] x2 w))
      end
  end.
Proof.
  unfold _run, bind, getattr, in_world, call, logged, log, set_outside.
  cbn [fst snd environ trace outside].
  destruct (BingSearchAPIWrapper E (k self) (environ E w) (outside E w))
    as [[bing | e] x1]; cbn [fst snd environ trace outside].
  - destruct (results E bing query (k self) x1) as [[rs | e] x2];
      cbn [fst snd environ trace outside]; rewrite <- ?app_assoc; reflexivity.
  - rewrite <- app_assoc. reflexivity.
Qed.

Lemma _run_self (query : string) (self : MyBingSearch) (w : World E) :
  fst (snd (_run E query (self, w))) = self.
Proof.
  rewrite _run_unfold.
  destruct (BingSearchAPIWrapper E (k self) (environ E w) (outside E w))
    as [[bing | e] x1]; [| reflexivity].
  destruct (results E bing query (k self) x1) as [[rs | e] x2]; reflexivity.
Qed.

Lemma runs_app (t1 t2 : list Event) :
  runs (t1 ++ t2) = (runs t1 + runs t2)%nat.
Proof.
  induction t1 as [| ev t1 IH]; [reflexivity |].
  destruct ev; cbn [app runs]; rewrite IH; reflexivity.
Qed.

(** What [_run] leaves of the world: the environment, and the trace
    with no agent run added. *)
Lemma _run_world (query : string) (self : MyBingSearch) (w : World E) :
  environ E (snd (snd (_run E query (self, w)))) = environ E w /\
  exists d, trace E (snd (snd (_run E query (self, w)))) = (trace E w ++ d)%list
            /\ runs d = O.
Proof.
  rewrite _run_unfold.
  destruct (BingSearchAPIWrapper E (k self) (environ E w) (outside E w))
    as [[bing | e] x1].
  - destruct (results E bing query (k self) x1) as [[rs | e] x2];
      (split; [reflexivity | eexists; split; reflexivity]).
  - split; [reflexivity | eexists; split; reflexivity].
Qed.

Lemma invoke_self (c : Invocation) (self : MyBingSearch) (w : World E) :
  fst (invoke E c (self, w)) = self.
Proof. destruct c; [apply _run_self | reflexivity]. Qed.

Lemma invoke_all_self (cs : list Invocation) :
  forall (self : MyBingSearch) (w : World E),
    fst (invoke_all E cs (self, w)) = self.
Proof.
  induction cs as [| c cs IH]; intros self w; [reflexivity |].
  unfold invoke_all. cbn [fold_left].
  pose proof (invoke_self c self w) as Hc.
  destruct (invoke E c (self, w)) as [self' w'].
  cbn [fst] in Hc. subst self'. apply IH.
Qed.

End ToolFacts.

Section AgentFacts.

Variable E : Externals.

(** ** The agent run *)

Lemma find_tool_lookup (tool : string) (ts : list MyBingSearch) :
  forall (j i : nat) (t : MyBingSearch),
    find_tool tool j ts = Some (i, t) ->
    exists i', i = (j + i')%nat /\ ts !! i' = Some t.
Proof.
  induction ts as [| t0 ts IH]; intros j i t H; [discriminate |].
  cbn [find_tool] in H. destruct (String.eqb (name t0) tool).
  - injection H as <- <-. exists O. split; [lia | reflexivity].
  - destruct (IH _ _ _ H) as [i' [-> Hi']].
    exists (S i'). split; [lia | exact Hi'].
Qed.

Lemma quiet_step_refl (s : Session E) : quiet_step E s s.
Proof.
  repeat split. exists []. split; [symmetry; apply app_nil_r | reflexivity].
Qed.

Lemma quiet_step_trans (s1 s2 s3 : Session E) :
  quiet_step E s1 s2 -> quiet_step E s2 s3 -> quiet_step E s1 s3.
Proof.
  intros (Ht & Hr & He & d & Hd & Hq) (Ht' & Hr' & He' & d' & Hd' & Hq').
  repeat split; [congruence | congruence | congruence |].
  exists (d ++ d')%list. split.
  - rewrite Hd', Hd, app_assoc. reflexivity.
  - rewrite runs_app, Hq, Hq'. reflexivity.
Qed.

(** Following a plan touches neither the tool list nor [response], and
    starts no agent run. *)
Lemma follow_quiet (p : AgentPlan) :
  forall s : Session E, quiet_step E s (snd (follow E p s)).
Proof.
  induction p as [answer | e | tool query next IH]; intros s.
  - apply quiet_step_refl.
  - apply quiet_step_refl.
  - cbn [follow].
    destruct (find_tool tool O (tools E s)) as [[i t] |] eqn:Hfind.
    + destruct (find_tool_lookup _ _ _ _ _ Hfind) as [i' [-> Hi']].
      pose proof (_run_self E query t (world E s)) as Hself.
      pose proof (_run_world E query t (world E s)) as [Henv [d [Hd Hq]]].
      destruct (_run E query (t, world E s)) as [o [t' w']].
      cbn [fst snd] in Hself, Henv, Hd. subst t'.
      eapply quiet_step_trans; [| apply IH].
      repeat split; cbn [tools response world set_tools set_world].
      * apply list_insert_id. exact Hi'.
      * exact Henv.
      * exists d. split; assumption.
    + apply IH.
Qed.

(** The value of [response] is invisible to the agent. *)
Lemma follow_put_response (p : AgentPlan) :
  forall (r : option string) (s : Session E),
    follow E p (put_response E r s) =
    (fst (follow E p s), put_response E r (snd (follow E p s))).
Proof.
  induction p as [answer | e | tool query next IH]; intros r s;
    [reflexivity | reflexivity |].
  cbn [follow put_response tools world].
  destruct (find_tool tool O (tools E s)) as [[i t] |].
  - destruct (_run E query (t, world E s)) as [o [t' w']].
    apply (IH (Some o) r (set_tools E _ (set_world E w' s))).
  - apply (IH None r s).
Qed.

Lemma run_unfold (q : string) (s : Session E) :
  agent_executor_run E q s =
  follow E (fst (plan E q (outside E (world E s))))
    (set_world E
       (logged E [EvAgentRun q] (snd (plan E q (outside E (world E s))))
          (world E s)) s).
Proof.
  unfold agent_executor_run, bind, lift, call.
  destruct (plan E q (outside E (world E s))) as [p x']. reflexivity.
Qed.

Lemma run_put_response (q : string) (r : option string) (s : Session E) :
  agent_executor_run E q (put_response E r s) =
  (fst (agent_executor_run E q s),
   put_response E r (snd (agent_executor_run E q s))).
Proof.
  rewrite !run_unfold.
  apply (follow_put_response _ r (set_world E _ s)).
Qed.

(** One agent run: the tool list and [response] as before, one more
    run in the trace, logged ahead of everything the run does. *)
Lemma run_step (q : string) (s : Session E) :
  tools E (snd (agent_executor_run E q s)) = tools E s /\
  response E (snd (agent_executor_run E q s)) = response E s /\
  exists d,
    trace E (world E (snd (agent_executor_run E q s))) =
      (trace E (world E s) ++ EvAgentRun q :: d)%list /\
    runs d = O.
Proof.
  rewrite run_unfold.
  destruct (follow_quiet (fst (plan E q (outside E (world E s))))
              (set_world E
                 (logged E [EvAgentRun q]
                    (snd (plan E q (outside E (world E s)))) (world E s)) s))
    as (Ht & Hr & _ & d & Hd & Hq).
  repeat split; [exact Ht | exact Hr |].
  exists d. split; [| exact Hq].
  rewrite Hd. cbn [world set_world trace logged].
  rewrite <- app_assoc. reflexivity.
Qed.

Lemma after_runs_S (q : string) (n : nat) :
  forall s : Session E,
    after_runs E q (S n) s = snd (agent_executor_run E q (after_runs E q n s)).
Proof.
  induction n as [| n IH]; intros s; [reflexivity |].
  change (after_runs E q (S (S n)) s)
    with (after_runs E q (S n) (snd (agent_executor_run E q s))).
  rewrite IH. reflexivity.
Qed.

Lemma after_runs_count (q : string) (n : nat) :
  forall s : Session E,
    runs (trace E (world E (after_runs E q n s))) =
      (runs (trace E (world E s)) + n)%nat /\
    tools E (after_runs E q n s) = tools E s /\
    response E (after_runs E q n s) = response E s.
Proof.
  induction n as [| n IH]; intros s.
  - cbn [after_runs]. repeat split. lia.
  - cbn [after_runs].
    destruct (run_step q s) as (Ht & Hr & d & Hd & Hq).
    destruct (IH (snd (agent_executor_run E q s))) as (Hn & Ht' & Hr').
    repeat split; [| congruence | congruence].
    rewrite Hn, Hd, runs_app. cbn [runs]. lia.
Qed.

End AgentFacts.

Section RetryFacts.

Variable E : Externals.

(** ** The retry loop *)

Lemma set_put_response (r' : string) (r : option string) (s : Session E) :
  set_response E r' (put_response E r s) = put_response E (Some r') s.
Proof. reflexivity. Qed.

Lemma put_response_id (s : Session E) : put_response E (response E s) s = s.
Proof. destruct s; reflexivity. Qed.

(** One pass through the body, by what the agent run does. *)
Lemma retry_body_step (q : string) (i : Z) (r : option string) (s : Session E) :
  retry_body E q i (put_response E r s) =
  match agent_executor_run E q s with
  | (Returned v, s') => (Returned Break, put_response E (Some v) s')
  | (Raised e, s') =>
      if isinstance e Exception
      then (Returned Continue, put_response E (Some (str e)) s')
      else (Raised e, put_response E r s')
  end.
Proof.
  unfold retry_body, try_except, bind, modify, ret.
  rewrite run_put_response.
  destruct (agent_executor_run E q s) as [[v | e] s']; cbn [fst snd].
  - reflexivity.
  - destruct (isinstance e Exception); reflexivity.
Qed.

(** As long as the attempts raise faults the handler takes, the loop
    goes on: [j] such attempts use up [j] iterations. *)
Lemma retry_skip_faults (q : string) (j : nat) :
  forall (l : list Z) (s : Session E) (r : option string) (es : nat -> PyExc),
    (j <= length l)%nat ->
    (forall i, (i < j)%nat ->
       attempt E q i s = Raised (es i) /\ isinstance (es i) Exception = true) ->
    for_in l (retry_body E q) (put_response E r s) =
    for_in (drop j l) (retry_body E q)
      (put_response E (after_faults r j es) (after_runs E q j s)).
Proof.
  induction j as [| j IH]; intros l s r es Hlen Hes.
  - rewrite drop_0. reflexivity.
  - destruct l as [| i0 l]; [cbn in Hlen; lia |].
    cbn [for_in drop]. rewrite retry_body_step.
    destruct (Hes O ltac:(lia)) as [H0 Hc0].
    unfold attempt in H0. cbn [after_runs] in H0.
    destruct (agent_executor_run E q s) as [o s1] eqn:Hrun.
    cbn [fst] in H0. subst o. rewrite Hc0.
    rewrite (IH l s1 (Some (str (es O))) (fun i => es (S i))).
    + cbn [after_runs]. rewrite Hrun. cbn [snd].
      destruct j; reflexivity.
    + cbn [length] in Hlen. lia.
    + intros i Hi. destruct (Hes (S i) ltac:(lia)) as [Hi1 Hi2].
      split; [| exact Hi2].
      unfold attempt in Hi1 |- *. cbn [after_runs] in Hi1.
      rewrite Hrun in Hi1. exact Hi1.
Qed.

Lemma range_length (n : nat) : length (range n) = n.
Proof. unfold range. rewrite length_map, length_seq. reflexivity. Qed.

(** Every attempt faults: the loop runs dry. *)
Lemma retry_exhausted (n : nat) (q : string) (s : Session E)
    (es : nat -> PyExc) :
  (forall i, (i < n)%nat ->
     attempt E q i s = Raised (es i) /\ isinstance (es i) Exception = true) ->
  retry_cell E n q s =
  (Returned tt,
   put_response E (after_faults (response E s) n es) (after_runs E q n s)).
Proof.
  intros Hes. unfold retry_cell.
  rewrite <- (put_response_id s) at 1.
  rewrite (retry_skip_faults q n (range n) s (response E s) es);
    [| rewrite range_length; lia | exact Hes].
  rewrite drop_ge by (rewrite range_length; lia).
  reflexivity.
Qed.

(** Attempt [j] is the first that does not raise a fault the handler
    takes: the loop ends there. *)
Lemma retry_ends_at (n : nat) (q : string) (s : Session E)
    (es : nat -> PyExc) (j : nat) :
  (j < n)%nat ->
  (forall i, (i < j)%nat ->
     attempt E q i s = Raised (es i) /\ isinstance (es i) Exception = true) ->
  retry_cell E n q s =
  match attempt E q j s with
  | Returned v =>
      (Returned tt, put_response E (Some v) (after_runs E q (S j) s))
  | Raised e =>
      if isinstance e Exception
      then for_in (drop (S j) (range n)) (retry_body E q)
             (put_response E (Some (str e)) (after_runs E q (S j) s))
      else (Raised e,
            put_response E (after_faults (response E s) j es)
              (after_runs E q (S j) s))
  end.
Proof.
  intros Hj Hes. unfold retry_cell.
  rewrite <- (put_response_id s) at 1.
  rewrite (retry_skip_faults q j (range n) s (response E s) es);
    [| rewrite range_length; lia | exact Hes].
  destruct (drop j (range n)) as [| i0 rest] eqn:Hdrop.
  { apply (f_equal length) in Hdrop.
    rewrite length_drop, range_length in Hdrop. cbn in Hdrop. lia. }
  assert (Hrest : rest = drop (S j) (range n)).
  { rewrite <- (Nat.add_1_l j), Nat.add_comm, <- drop_drop, Hdrop. reflexivity. }
  cbn [for_in]. rewrite retry_body_step.
  rewrite after_runs_S. unfold attempt.
  destruct (agent_executor_run E q (after_runs E q j s)) as [[v | e] s'];
    cbn [fst snd]; [reflexivity |].
  destruct (isinstance e Exception); [rewrite Hrest |]; reflexivity.
Qed.

End RetryFacts.

Section CompositionFacts.

Variable E : Externals.

(** ** The composition cells *)

Lemma cell_environment_trace (w : World E) :
  trace E (snd (cell_environment E w)) = trace E w.
Proof.
  unfold cell_environment, bind, environ_getitem, environ_setitem, modify,
    set_environ.
  repeat (match goal with
          | |- context [match ?m !! ?key with _ => _ end] =>
              destruct (m !! key)
          end; cbn [fst snd trace environ]);
    reflexivity.
Qed.




(** A missing variable stops the environment cell at the first one
    that is missing. *)
Lemma cell_environment_missing (w : World E) (key : string) :
  In key (azure_keys) ->
  environ E w !! key = None ->
  exists key',
    In key' azure_keys /\
    environ E w !! key' = None /\
    fst (cell_environment E w) = Raised (key_error key').
Proof.
  intros Hin Hnone.
  unfold cell_environment, bind, environ_getitem, environ_setitem, modify,
    set_environ.
  destruct (environ E w !! "AZURE_OPENAI_ENDPOINT") as [v1 |] eqn:H1;
    cbn [fst snd environ].
  2: { exists "AZURE_OPENAI_ENDPOINT". cbn. auto. }
  rewrite lookup_insert_ne by discriminate.
  destruct (environ E w !! "AZURE_OPENAI_API_KEY") as [v2 |] eqn:H2;
    cbn [fst snd environ].
  2: { exists "AZURE_OPENAI_API_KEY". cbn. auto. }
  rewrite !lookup_insert_ne by discriminate.
  destruct (environ E w !! "AZURE_OPENAI_API_VERSION") as [v3 |] eqn:H3;
    cbn [fst snd environ].
  2: { exists "AZURE_OPENAI_API_VERSION". cbn. auto. }
  exfalso. cbn in Hin.
  destruct Hin as [<- | [<- | [<- | []]]]; congruence.
Qed.

(** ** A fault of the wrapper's constructor inside an agent run *)


End CompositionFacts.

(** * The claims *)

Section Claims.

Variable E : Externals.

(** C1. When every attempt of the agent run raises an Exception-derived
    fault, the retry loop completes normally after exactly the
    configured number [n] of attempts (the notebook's two cells have
    [n = 2] and [n = 3]), and [response] holds the string of the last
    fault raised. *)
Theorem retry_all_attempts_fault (n : nat) (q : string) (s : Session E)
    (es : nat -> PyExc) :
  (0 < n)%nat ->
  (forall i, (i < n)%nat ->
     attempt E q i s = Raised (es i) /\ isinstance (es i) Exception = true) ->
  fst (retry_cell E n q s) = Returned tt /\
  response E (snd (retry_cell E n q s)) = Some (str (es (n - 1)%nat)) /\
  runs (trace E (world E (snd (retry_cell E n q s)))) =
    (runs (trace E (world E s)) + n)%nat.
Proof.
  intros Hn Hes. rewrite (retry_exhausted E n q s es Hes). cbn [fst snd].
  repeat split.
  - destruct n as [| m]; [lia |].
    cbn [put_response response after_faults].
    replace (S m - 1)%nat with m by lia. reflexivity.
  - cbn [put_response world]. apply after_runs_count.
Qed.

(** C2. When the first attempt raises an Exception-derived fault and a
    later attempt [j] within the configured [n] is the first to succeed,
    the retry loop stops right after that attempt ([j + 1] agent runs in
    all) and [response] is the value that attempt returned: the session
    left behind is fixed by the agent runs and that value alone, the
    strings of the earlier faults are gone from it. *)
Theorem retry_success_after_fault (n : nat) (q : string) (s : Session E)
    (es : nat -> PyExc) (j : nat) (v : string) :
  (0 < j < n)%nat ->
  (forall i, (i < j)%nat ->
     attempt E q i s = Raised (es i) /\ isinstance (es i) Exception = true) ->
  attempt E q j s = Returned v ->
  retry_cell E n q s =
    (Returned tt, put_response E (Some v) (after_runs E q (S j) s)) /\
  response E (snd (retry_cell E n q s)) = Some v /\
  runs (trace E (world E (snd (retry_cell E n q s)))) =
    (runs (trace E (world E s)) + S j)%nat.
Proof.
  intros [_ Hj] Hes Hv.
  rewrite (retry_ends_at E n q s es j Hj Hes), Hv. cbn [fst snd].
  repeat split. cbn [put_response world]. apply after_runs_count.
Qed.

(** C9. When an attempt raises a fault that is not derived from
    Exception (the attempts before it having raised faults the handler
    takes), the fault leaves the retry loop uncaught, no further attempt
    is made, and the loop assigns nothing to [response] for it. *)
Theorem retry_lets_other_faults_through (n : nat) (q : string)
    (s : Session E) (es : nat -> PyExc) (j : nat) (e : PyExc) :
  (j < n)%nat ->
  (forall i, (i < j)%nat ->
     attempt E q i s = Raised (es i) /\ isinstance (es i) Exception = true) ->
  attempt E q j s = Raised e ->
  isinstance e Exception = false ->
  fst (retry_cell E n q s) = Raised e /\
  runs (trace E (world E (snd (retry_cell E n q s)))) =
    (runs (trace E (world E s)) + S j)%nat /\
  response E (snd (retry_cell E n q s)) = after_faults (response E s) j es.
Proof.
  intros Hj Hes He Hcls.
  rewrite (retry_ends_at E n q s es j Hj Hes), He, Hcls. cbn [fst snd].
  repeat split. cbn [put_response world]. apply after_runs_count.
Qed.


(** C4. Whatever the query, the asynchronous entry point raises
    NotImplementedError: it returns no value and leaves the world as it
    was, so no search is made. *)
Theorem _arun_always_raises (query : string) (self : MyBingSearch)
    (w : World E) :
  _arun E query (self, w) =
    (Raised (mkExc NotImplementedError "This Tool does not support async"),
     (self, w)) /\
  (forall v, fst (_arun E query (self, w)) <> Returned v) /\
  searches (trace E (snd (snd (_arun E query (self, w))))) =
    searches (trace E w).
Proof. repeat split. intros v H. discriminate H. Qed.

(** C5. [printmd] displays its argument with every dollar sign
    replaced by the text USD and a space: the displayed text holds no
    dollar sign, and a string containing $100 is shown with USD 100 in
    its place. *)
Theorem printmd_replaces_dollar (text : string) (w : World E) :
  printmd E text w =
    (Returned tt, log E (EvDisplay (Render.dollar_to_USD text)) w) /\
  Render.has_char "$"%char (Render.dollar_to_USD text) = false /\
  (forall a b,
     text = a ++ "$100" ++ b ->
     Render.dollar_to_USD text =
       Render.dollar_to_USD a ++ "USD 100" ++ Render.dollar_to_USD b).
Proof.
  repeat split.
  - unfold printmd, display_Markdown, modify.
    rewrite RenderFacts.replace_dollar. reflexivity.
  - apply RenderFacts.dollar_to_USD_clean.
  - intros a b ->. rewrite !RenderFacts.dollar_to_USD_app. reflexivity.
Qed.

(** C6. The tool's name and description are set by the constructor,
    whatever [k] is asked for, and no sequence of synchronous and
    asynchronous invocations changes the tool object: name, description
    and [k] are after it what they were before; an agent run leaves the
    tool list as it was. *)
Theorem descriptor_unchanged (k_arg : option Z) (self : MyBingSearch)
    (cs : list Invocation) (w : World E) (q : string) (s : Session E) :
  name (MyBingSearch_new k_arg) = "@bing" /\
  description (MyBingSearch_new k_arg) =
    "useful when the questions includes the term: @bing." ++ LF /\
  name (fst (invoke_all E cs (self, w))) = name self /\
  description (fst (invoke_all E cs (self, w))) = description self /\
  k (fst (invoke_all E cs (self, w))) = k self /\
  tools E (snd (agent_executor_run E q s)) = tools E s.
Proof.
  rewrite invoke_all_self.
  repeat split. apply run_step.
Qed.

(** C7. When the wrapper is built and its search raises, [_run] raises
    that same exception: it makes the one search call and no other,
    and nothing catches or changes the fault. *)
Theorem _run_propagates_backend_fault (self : MyBingSearch) (query : string)
    (w : World E) (bing : B E) (x1 x2 : X E) (e : PyExc) :
  BingSearchAPIWrapper E (k self) (environ E w) (outside E w)
    = (Returned bing, x1) ->
  results E bing query (k self) x1 = (Raised e, x2) ->
  _run E query (self, w) =
    (Raised e,
     (self, logged E [EvBingWrapper (k self); EvBingResults query (k self);
                      EvRaised e] x2 w)) /\
  searches (trace E (snd (snd (_run E query (self, w))))) =
    (searches (trace E w) + 1)%nat.
Proof.
  intros Hnew Hres. rewrite _run_unfold, Hnew, Hres.
  split; [reflexivity |].
  cbn [fst snd logged trace].
  induction (trace E w) as [| ev t IH]; [reflexivity |].
  destruct ev; cbn [app searches] in *; rewrite IH; reflexivity.
Qed.

(** C10. [_run] checks nothing about its query: given the empty string
    it builds the wrapper and calls the search with the empty string and
    its [k], and its outcome is whatever the backend answers. *)
Theorem _run_forwards_empty_query (self : MyBingSearch) (w : World E)
    (bing : B E) (x1 : X E) :
  BingSearchAPIWrapper E (k self) (environ E w) (outside E w)
    = (Returned bing, x1) ->
  fst (_run E "" (self, w)) = fst (results E bing "" (k self) x1) /\
  exists d,
    trace E (snd (snd (_run E "" (self, w)))) =
      (trace E w ++ [EvBingWrapper (k self); EvBingResults "" (k self)] ++ d)%list
    /\ searches d = O.
Proof.
  intros Hnew. rewrite _run_unfold, Hnew.
  destruct (results E bing "" (k self) x1) as [[rs | e] x2];
    cbn [fst snd logged trace].
  - split; [reflexivity |]. exists []. split; reflexivity.
  - split; [reflexivity |]. exists [EvRaised e]. split; reflexivity.
Qed.

End Claims.

(** * The claims on concrete runs *)

Module Runs.
Import Script.

(** Both retry cells, with a model whose output never parses. *)
Lemma retry_all_attempts_fault_witness :
  let s := ready E_serving full_env [] in
  (fst (retry_cell E_serving 2 QUESTION_1 s) = Returned tt /\
   response E_serving (snd (retry_cell E_serving 2 QUESTION_1 s))
     = Some "Could not parse LLM output" /\
   runs (trace E_serving (world E_serving
           (snd (retry_cell E_serving 2 QUESTION_1 s)))) = 2%nat) /\
  (fst (retry_cell E_serving 3 QUESTION_2 s) = Returned tt /\
   response E_serving (snd (retry_cell E_serving 3 QUESTION_2 s))
     = Some "Could not parse LLM output" /\
   runs (trace E_serving (world E_serving
           (snd (retry_cell E_serving 3 QUESTION_2 s)))) = 3%nat).
Proof.
  intros s. split.
  - apply (retry_all_attempts_fault E_serving 2 QUESTION_1 s
             (fun _ => parse_fault)); [lia |].
    intros i Hi. destruct i as [| [| i]];
      [split; vm_compute; reflexivity | split; vm_compute; reflexivity | lia].
  - apply (retry_all_attempts_fault E_serving 3 QUESTION_2 s
             (fun _ => parse_fault)); [lia |].
    intros i Hi. destruct i as [| [| [| i]]];
      [split; vm_compute; reflexivity | split; vm_compute; reflexivity
      | split; vm_compute; reflexivity | lia].
Defined.

(** The first output does not parse, the second run searches and
    answers; the third iteration is never reached. *)
Lemma retry_success_after_fault_witness :
  let s := ready E_serving full_env
             [Fault parse_fault; search_then_answer "oil supply" "Supply is tight."] in
  (0 < 1 < 3)%nat /\
  attempt E_serving QUESTION_2 0 s = Raised parse_fault /\
  attempt E_serving QUESTION_2 1 s = Returned "Supply is tight." /\
  response E_serving (snd (retry_cell E_serving 3 QUESTION_2 s))
    = Some "Supply is tight." /\
  runs (trace E_serving (world E_serving
          (snd (retry_cell E_serving 3 QUESTION_2 s)))) = 2%nat.
Proof.
  intros s.
  split; [lia |]. split; [vm_compute; reflexivity |].
  split; [vm_compute; reflexivity |].
  apply (retry_success_after_fault E_serving 3 QUESTION_2 s
           (fun _ => parse_fault) 1 "Supply is tight.").
  - lia.
  - intros i Hi. destruct i as [| i]; [split; vm_compute; reflexivity | lia].
  - vm_compute; reflexivity.
Defined.

(** An interrupt during the first run. *)
Lemma retry_lets_other_faults_through_witness :
  let s := ready E_serving full_env [Fault interrupt] in
  isinstance interrupt Exception = false /\
  fst (retry_cell E_serving 2 QUESTION_1 s) = Raised interrupt /\
  runs (trace E_serving (world E_serving
          (snd (retry_cell E_serving 2 QUESTION_1 s)))) = 1%nat /\
  response E_serving (snd (retry_cell E_serving 2 QUESTION_1 s)) = None.
Proof.
  intros s. split; [reflexivity |].
  apply (retry_lets_other_faults_through E_serving 2 QUESTION_1 s
           (fun _ => parse_fault) 0 interrupt).
  - lia.
  - intros i Hi. lia.
  - vm_compute; reflexivity.
  - reflexivity.
Defined.

Lemma printmd_replaces_dollar_witness :
  Render.dollar_to_USD "It costs $100 now" = "It costs USD 100 now".
Proof.
  apply (proj2 (proj2 (printmd_replaces_dollar E_serving "It costs $100 now"
                         (bare_world E_serving []))) "It costs " " now").
  reflexivity.
Defined.

Lemma _run_propagates_backend_fault_witness :
  let self := MyBingSearch_new None in
  let w := bare_world E_refusing [] in
  _run E_refusing "oil supply" (self, w) =
    (Raised refused,
     (self, logged E_refusing [EvBingWrapper 5; EvBingResults "oil supply" 5;
                               EvRaised refused] [] w)) /\
  searches (trace E_refusing (snd (snd (_run E_refusing "oil supply" (self, w)))))
    = 1%nat.
Proof.
  intros self w.
  apply (_run_propagates_backend_fault E_refusing self "oil supply" w 5 [] []
           refused); vm_compute; reflexivity.
Defined.

Lemma _run_forwards_empty_query_witness :
  let self := MyBingSearch_new None in
  let w := bare_world E_serving [] in
  fst (_run E_serving "" (self, w)) = Returned hits /\
  exists d,
    trace E_serving (snd (snd (_run E_serving "" (self, w)))) =
      ([] ++ [EvBingWrapper 5; EvBingResults "" 5] ++ d)%list /\
    searches d = O.
Proof.
  intros self w.
  apply (_run_forwards_empty_query E_serving self w 5 []).
  vm_compute; reflexivity.
Defined.


End Runs.

(** * Further properties of the notebook's code *)

(** ** Rendering *)

Module RenderMore.
Import Render.

Lemma dollar_free_id (s : string) :
  has_char "$"%char s = false -> dollar_to_USD s = s.
Proof.
  induction s as [| c rest IH]; [reflexivity |].
  cbn [has_char dollar_to_USD]. intros H.
  apply orb_false_iff in H as [Hc Hrest].
  rewrite Hc, (IH Hrest). reflexivity.
Qed.

Lemma length_append (a b : string) :
  String.length (a ++ b) = (String.length a + String.length b)%nat.
Proof.
  induction a as [| c a IH]; [reflexivity |].
  rewrite RenderFacts.append_cons. cbn [String.length]. rewrite IH. reflexivity.
Qed.

Lemma dollar_to_USD_length (s : string) :
  String.length (dollar_to_USD s) = (String.length s + 3 * dollars s)%nat.
Proof.
  induction s as [| c rest IH]; [reflexivity |].
  cbn [dollar_to_USD dollars].
  destruct (Ascii.eqb "$"%char c).
  - rewrite length_append, IH. cbn [String.length]. lia.
  - cbn [String.length]. rewrite IH. lia.
Qed.

End RenderMore.

Section RenderingExtras.

Variable E : Externals.

(** X1. A text without a dollar sign is displayed as it is. *)
Theorem printmd_keeps_dollar_free_text (text : string) (w : World E) :
  Render.has_char "$"%char text = false ->
  printmd E text w = (Returned tt, log E (EvDisplay text) w).
Proof.
  intros Hfree. unfold printmd, display_Markdown, modify.
  rewrite RenderFacts.replace_dollar, (RenderMore.dollar_free_id _ Hfree).
  reflexivity.
Qed.

(** X2. Rendering twice is rendering once: what [printmd] displays for a
    text, it displays unchanged when given that displayed text. *)
Theorem printmd_idempotent (text : string) (w : World E) :
  exists shown,
    printmd E text w = (Returned tt, log E (EvDisplay shown) w) /\
    printmd E shown w = (Returned tt, log E (EvDisplay shown) w).
Proof.
  exists (Render.dollar_to_USD text).
  unfold printmd, display_Markdown, modify.
  rewrite !RenderFacts.replace_dollar.
  rewrite (RenderMore.dollar_free_id _ (RenderFacts.dollar_to_USD_clean text)).
  split; reflexivity.
Qed.

(** X3. The displayed text is three characters longer than the
    argument for each dollar sign in it. *)
Theorem printmd_length (text : string) (w : World E) :
  exists shown,
    printmd E text w = (Returned tt, log E (EvDisplay shown) w) /\
    String.length shown = (String.length text + 3 * dollars text)%nat.
Proof.
  exists (Render.dollar_to_USD text). split.
  - unfold printmd, display_Markdown, modify.
    rewrite RenderFacts.replace_dollar. reflexivity.
  - apply RenderMore.dollar_to_USD_length.
Qed.

(** X4. Rendering loses the difference between a dollar sign and the
    text it is replaced by: the two arguments are displayed alike. *)
Theorem printmd_conflates (a b : string) (w : World E) :
  printmd E (a ++ "$" ++ b) w = printmd E (a ++ "USD " ++ b) w.
Proof.
  unfold printmd, display_Markdown, modify.
  rewrite !RenderFacts.replace_dollar, !RenderFacts.dollar_to_USD_app.
  reflexivity.
Qed.

End RenderingExtras.

(** ** The environment cell *)

Section EnvironmentExtras.

Variable E : Externals.

(** The environment the cell leaves when it gets through. *)
Lemma cell_environment_success (w : World E) (v1 v2 v3 : string) :
  environ E w !! "AZURE_OPENAI_ENDPOINT" = Some v1 ->
  environ E w !! "AZURE_OPENAI_API_KEY" = Some v2 ->
  environ E w !! "AZURE_OPENAI_API_VERSION" = Some v3 ->
  cell_environment E w =
  (Returned tt,
   set_environ E
     (<["OPENAI_API_TYPE" := "azure"]>
        (<["OPENAI_API_VERSION" := v3]>
           (<["OPENAI_API_KEY" := v2]>
              (<["OPENAI_API_BASE" := v1]> (environ E w))))) w).
Proof.
  intros H1 H2 H3.
  unfold cell_environment, bind, environ_getitem, environ_setitem, modify,
    set_environ.
  rewrite H1. cbn [fst snd environ trace outside].
  rewrite lookup_insert_ne by discriminate. rewrite H2.
  cbn [fst snd environ trace outside].
  rewrite !lookup_insert_ne by discriminate. rewrite H3.
  reflexivity.
Qed.

Lemma cell_environment_present (w : World E) :
  fst (cell_environment E w) = Returned tt ->
  exists v1 v2 v3,
    environ E w !! "AZURE_OPENAI_ENDPOINT" = Some v1 /\
    environ E w !! "AZURE_OPENAI_API_KEY" = Some v2 /\
    environ E w !! "AZURE_OPENAI_API_VERSION" = Some v3.
Proof.
  intros Hret.
  destruct (environ E w !! "AZURE_OPENAI_ENDPOINT") as [v1 |] eqn:H1.
  2: { destruct (cell_environment_missing E w "AZURE_OPENAI_ENDPOINT")
         as (key & _ & _ & Hfst); [cbn; auto | exact H1 | congruence]. }
  destruct (environ E w !! "AZURE_OPENAI_API_KEY") as [v2 |] eqn:H2.
  2: { destruct (cell_environment_missing E w "AZURE_OPENAI_API_KEY")
         as (key & _ & _ & Hfst); [cbn; auto | exact H2 | congruence]. }
  destruct (environ E w !! "AZURE_OPENAI_API_VERSION") as [v3 |] eqn:H3.
  2: { destruct (cell_environment_missing E w "AZURE_OPENAI_API_VERSION")
         as (key & _ & _ & Hfst); [cbn; auto | exact H3 | congruence]. }
  exists v1, v2, v3. auto.
Qed.

(** X5. The environment cell gets through exactly when the three Azure
    variables are all set. *)
Theorem cell_environment_returns_iff (w : World E) :
  fst (cell_environment E w) = Returned tt <->
  Forall (fun key => is_Some (environ E w !! key)) azure_keys.
Proof.
  split.
  - intros Hret.
    destruct (cell_environment_present w Hret) as (v1 & v2 & v3 & H1 & H2 & H3).
    unfold azure_keys. repeat constructor; eauto.
  - intros Hall. unfold azure_keys in Hall.
    inversion Hall as [| ? ? [v1 H1] Hall1]; subst.
    inversion Hall1 as [| ? ? [v2 H2] Hall2]; subst.
    inversion Hall2 as [| ? ? [v3 H3] _]; subst.
    rewrite (cell_environment_success w v1 v2 v3 H1 H2 H3). reflexivity.
Qed.

(** X6. When the cell gets through, the three client variables hold
    copies of the Azure ones, the type is azure, every variable that is
    not one of the four written is as before (the Azure ones among
    them), and no outside call has been made. *)
Theorem cell_environment_copies (w : World E) :
  fst (cell_environment E w) = Returned tt ->
  let w' := snd (cell_environment E w) in
  environ E w' !! "OPENAI_API_BASE" = environ E w !! "AZURE_OPENAI_ENDPOINT" /\
  environ E w' !! "OPENAI_API_KEY" = environ E w !! "AZURE_OPENAI_API_KEY" /\
  environ E w' !! "OPENAI_API_VERSION"
    = environ E w !! "AZURE_OPENAI_API_VERSION" /\
  environ E w' !! "OPENAI_API_TYPE" = Some "azure" /\
  (forall key, ~ In key openai_keys ->
     environ E w' !! key = environ E w !! key) /\
  trace E w' = trace E w /\
  outside E w' = outside E w.
Proof.
  intros Hret.
  destruct (cell_environment_present w Hret) as (v1 & v2 & v3 & H1 & H2 & H3).
  rewrite (cell_environment_success w v1 v2 v3 H1 H2 H3).
  cbn [snd set_environ environ trace outside]. rewrite H1, H2, H3.
  repeat apply conj; try reflexivity.
  - rewrite !lookup_insert_ne by discriminate. apply lookup_insert_eq.
  - rewrite !lookup_insert_ne by discriminate. apply lookup_insert_eq.
  - rewrite lookup_insert_ne by discriminate. apply lookup_insert_eq.
  - apply lookup_insert_eq.
  - intros key Hkey. unfold openai_keys in Hkey. cbn [In] in Hkey.
    rewrite !lookup_insert_ne; [reflexivity | | | |];
      intros <-; apply Hkey; auto.
Qed.


(** X8. Running the cell again after it got through changes nothing. *)
Theorem cell_environment_idempotent (w : World E) :
  fst (cell_environment E w) = Returned tt ->
  cell_environment E (snd (cell_environment E w)) =
    (Returned tt, snd (cell_environment E w)).
Proof.
  intros Hret.
  destruct (cell_environment_present w Hret) as (v1 & v2 & v3 & H1 & H2 & H3).
  rewrite (cell_environment_success w v1 v2 v3 H1 H2 H3). cbn [snd].
  rewrite (cell_environment_success _ v1 v2 v3);
    cbn [set_environ environ trace outside];
    try (rewrite !lookup_insert_ne by discriminate; assumption).
  unfold set_environ. cbn [environ trace outside].
  f_equal. f_equal. apply map_eq. intros key.
  rewrite !lookup_insert. repeat case_decide; congruence.
Qed.

End EnvironmentExtras.

(** ** Counting in traces *)

Section TraceFacts.

Variable E : Externals.

Lemma searches_app (t1 t2 : list Event) :
  searches (t1 ++ t2) = (searches t1 + searches t2)%nat.
Proof.
  induction t1 as [| ev t1 IH]; [reflexivity |].
  destruct ev; cbn [app searches]; rewrite IH; reflexivity.
Qed.

Lemma wrappers_app (t1 t2 : list Event) :
  wrappers (t1 ++ t2) = (wrappers t1 + wrappers t2)%nat.
Proof.
  induction t1 as [| ev t1 IH]; [reflexivity |].
  destruct ev; cbn [app wrappers]; rewrite IH; reflexivity.
Qed.

Lemma displayed_app (t1 t2 : list Event) :
  displayed (t1 ++ t2) = (displayed t1 ++ displayed t2)%list.
Proof.
  induction t1 as [| ev t1 IH]; [reflexivity |].
  destruct ev; cbn [app displayed]; rewrite IH; reflexivity.
Qed.


(** What one [_run] adds to the trace. *)
Lemma _run_events (query : string) (self : MyBingSearch) (w : World E) :
  environ E (snd (snd (_run E query (self, w)))) = environ E w /\
  exists d,
    trace E (snd (snd (_run E query (self, w)))) = (trace E w ++ d)%list /\
    Forall (fun ev => agent_event ev = true) d /\
    runs d = O /\ wrappers d = 1%nat /\ (searches d <= 1)%nat.
Proof.
  rewrite _run_unfold.
  destruct (BingSearchAPIWrapper E (k self) (environ E w) (outside E w))
    as [[bing | e] x1].
  - destruct (results E bing query (k self) x1) as [[rs | e] x2];
      (split; [reflexivity |]; eexists; split; [reflexivity |];
       repeat split; [repeat constructor | cbn; lia]).
  - split; [reflexivity |]. eexists. split; [reflexivity |].
    repeat split; [repeat constructor | cbn; lia].
Qed.

(** What following a plan adds to the trace. *)
Lemma follow_events (p : AgentPlan) :
  forall s : Session E,
  exists d,
    trace E (world E (snd (follow E p s))) = (trace E (world E s) ++ d)%list /\
    Forall (fun ev => agent_event ev = true) d.
Proof.
  induction p as [answer | e | tool query next IH]; intros s.
  - exists []. split; [symmetry; apply app_nil_r | constructor].
  - exists []. split; [symmetry; apply app_nil_r | constructor].
  - cbn [follow].
    destruct (find_tool tool O (tools E s)) as [[i t] |]; [| apply IH].
    destruct (_run_events query t (world E s)) as (_ & d & Hd & Hev & _).
    destruct (_run E query (t, world E s)) as [o [t' w']].
    cbn [fst snd] in Hd.
    destruct (IH (Some o) (set_tools E (<[i := t']> (tools E s))
                             (set_world E w' s))) as (d' & Hd' & Hev').
    exists (d ++ d')%list. split.
    + rewrite Hd'. cbn [world set_tools set_world]. rewrite Hd, app_assoc.
      reflexivity.
    + apply Forall_app. split; assumption.
Qed.

(** One agent run, whatever the agent does. *)
Lemma run_any (q : string) (s : Session E) :
  tools E (snd (agent_executor_run E q s)) = tools E s /\
  environ E (world E (snd (agent_executor_run E q s)))
    = environ E (world E s) /\
  exists d,
    trace E (world E (snd (agent_executor_run E q s))) =
      (trace E (world E s) ++ EvAgentRun q :: d)%list /\
    Forall (fun ev => agent_event ev = true) d /\
    runs d = O.
Proof.
  destruct (run_step E q s) as (Ht & _ & d & Hd & Hq).
  split; [exact Ht |].
  rewrite run_unfold in Hd |- *.
  set (s0 := set_world E
               (logged E [EvAgentRun q]
                  (snd (plan E q (outside E (world E s)))) (world E s)) s)
    in *.
  destruct (follow_quiet E (fst (plan E q (outside E (world E s)))) s0)
    as (_ & _ & Henv & _).
  destruct (follow_events (fst (plan E q (outside E (world E s)))) s0)
    as (d' & Hd' & Hev').
  split; [exact Henv |].
  exists d. split; [exact Hd |]. split; [| exact Hq].
  rewrite Hd' in Hd. subst s0.
  cbn [world set_world logged trace] in Hd.
  rewrite <- app_assoc in Hd. apply app_inv_head in Hd.
  injection Hd as <-. exact Hev'.
Qed.

End TraceFacts.

(** ** The tool over many invocations, and the agent cell *)

Section ToolExtras.

Variable E : Externals.

Lemma invoke_counts (c : Invocation) (self : MyBingSearch) (w : World E) :
  environ E (snd (invoke E c (self, w))) = environ E w /\
  wrappers (trace E (snd (invoke E c (self, w)))) =
    (wrappers (trace E w) + syncs [c])%nat /\
  (searches (trace E (snd (invoke E c (self, w)))) <=
     searches (trace E w) + syncs [c])%nat.
Proof.
  destruct c as [query | query]; cbn [invoke syncs].
  - destruct (_run_events E query self w) as (Henv & d & Hd & _ & _ & Hw & Hs).
    rewrite Hd, wrappers_app, searches_app, Hw. repeat split; [exact Henv | lia].
  - cbn [_arun raise snd]. repeat split; lia.
Qed.

(** X9. The wrapper is built anew on every synchronous invocation and
    kept for none: over any sequence of invocations the trace gains one
    wrapper construction per synchronous call and at most one search
    per synchronous call, asynchronous calls add neither, and the
    process environment is as before. *)
Theorem invocations_build_a_wrapper_each (cs : list Invocation) :
  forall (self : MyBingSearch) (w : World E),
    wrappers (trace E (snd (invoke_all E cs (self, w)))) =
      (wrappers (trace E w) + syncs cs)%nat /\
    (searches (trace E (snd (invoke_all E cs (self, w)))) <=
       searches (trace E w) + syncs cs)%nat /\
    environ E (snd (invoke_all E cs (self, w))) = environ E w.
Proof.
  induction cs as [| c cs IH]; intros self w.
  - cbn [invoke_all fold_left snd syncs]. repeat split; lia.
  - unfold invoke_all. cbn [fold_left].
    pose proof (invoke_self E c self w) as Hself.
    destruct (invoke_counts c self w) as (Henv & Hw & Hs).
    destruct (invoke E c (self, w)) as [self' w'].
    cbn [fst snd] in Hself, Henv, Hw, Hs. subst self'.
    destruct (IH self w') as (Hw' & Hs' & Henv').
    unfold invoke_all in Hw', Hs', Henv'.
    rewrite Hw', Hw, Henv', Henv.
    assert (Hsync : syncs (c :: cs) = (syncs [c] + syncs cs)%nat)
      by (destruct c; reflexivity).
    rewrite Hsync. repeat split; lia.
Qed.

(** What the agent cell does, whatever building the agent gives. *)
Lemma cell_agent_effect (s : Session E) :
  tools E (snd (cell_agent E s)) = [MyBingSearch_new (Some 5)] /\
  response E (snd (cell_agent E s)) = response E s /\
  trace E (world E (snd (cell_agent E s))) =
    (trace E (world E s) ++
     EvInitAgent ["@bing"] ::
     match fst (cell_agent E s) with
     | Returned _ => []
     | Raised e => [EvRaised e]
     end)%list.
Proof.
  unfold cell_agent, bind, modify, lift, call.
  cbn [fst snd tools set_tools world map name MyBingSearch_new].
  destruct (initialize_agent E ["@bing"] (outside E (world E s)))
    as [[[] | e] x'];
    cbn [fst snd tools response world set_world set_tools set_outside log trace];
    (split; [reflexivity |]; split; [reflexivity |]);
    rewrite <- ?app_assoc; reflexivity.
Qed.

(** X10. The agent cell assigns the tool list, it does not add to it:
    whatever [tools] held, it then holds the one tool named @bing with
    [k = 5], which is the only name the agent can find; the agent is
    built from that name, [response] is untouched, and the list is
    assigned even when building the agent raises. *)
Theorem cell_agent_assigns_tools (s : Session E) :
  tools E (snd (cell_agent E s)) = [MyBingSearch_new (Some 5)] /\
  (forall tool,
     find_tool tool O (tools E (snd (cell_agent E s))) =
       if String.eqb "@bing" tool then Some (O, MyBingSearch_new (Some 5))
       else None) /\
  response E (snd (cell_agent E s)) = response E s /\
  trace E (world E (snd (cell_agent E s))) =
    (trace E (world E s) ++
     EvInitAgent ["@bing"] ::
     match fst (cell_agent E s) with
     | Returned _ => []
     | Raised e => [EvRaised e]
     end)%list.
Proof.
  destruct (cell_agent_effect s) as (Ht & Hr & Htr).
  split; [exact Ht |]. split; [| split; [exact Hr | exact Htr]].
  intros tool. rewrite Ht. cbn [find_tool name MyBingSearch_new].
  destruct (String.eqb "@bing" tool); reflexivity.
Qed.

End ToolExtras.

(** ** The retry cell, whatever the agent does *)

Section RetryExtras.

Variable E : Externals.

(** One iteration of the loop, by what the agent run does. *)
Lemma for_in_retry_cons (q : string) (i : Z) (l : list Z) (s : Session E) :
  for_in (i :: l) (retry_body E q) s =
  match agent_executor_run E q s with
  | (Returned v, s') => (Returned tt, put_response E (Some v) s')
  | (Raised e, s') =>
      if isinstance e Exception
      then for_in l (retry_body E q) (put_response E (Some (str e)) s')
      else (Raised e, put_response E (response E s) s')
  end.
Proof.
  cbn [for_in].
  pose proof (retry_body_step E q i (response E s) s) as Hstep.
  rewrite put_response_id in Hstep. rewrite Hstep.
  destruct (agent_executor_run E q s) as [[v | e] s']; [reflexivity |].
  destruct (isinstance e Exception); reflexivity.
Qed.

(** The loop over any iterations, from any session. *)
Lemma retry_loop_any (q : string) (l : list Z) :
  forall s : Session E,
    tools E (snd (for_in l (retry_body E q) s)) = tools E s /\
    environ E (world E (snd (for_in l (retry_body E q) s)))
      = environ E (world E s) /\
    (fst (for_in l (retry_body E q) s) = Returned tt ->
     is_Some (response E s) \/ l <> [] ->
     is_Some (response E (snd (for_in l (retry_body E q) s)))) /\
    (forall e, fst (for_in l (retry_body E q) s) = Raised e ->
               isinstance e Exception = false) /\
    exists d,
      trace E (world E (snd (for_in l (retry_body E q) s))) =
        (trace E (world E s) ++ d)%list /\
      Forall (fun ev => agent_event ev = true) d /\
      (runs d <= length l)%nat /\
      (l <> [] -> (1 <= runs d)%nat).
Proof.
  induction l as [| i l IH]; intros s.
  - cbn [for_in ret fst snd length]. repeat apply conj; try reflexivity.
    + intros _ [H | H]; [exact H | congruence].
    + intros e H. discriminate H.
    + exists []. repeat apply conj;
        [symmetry; apply app_nil_r | constructor | cbn; lia | congruence].
  - rewrite for_in_retry_cons. cbn [length].
    destruct (run_any E q s) as (Ht & Henv & d0 & Hd0 & Hev0 & Hq0).
    destruct (agent_executor_run E q s) as [[v | e] s1];
      cbn [fst snd] in Ht, Henv, Hd0.
    + cbn [fst snd put_response tools world response].
      repeat apply conj; [exact Ht | exact Henv | eauto
                         | intros e H; discriminate H |].
      exists (EvAgentRun q :: d0). split; [exact Hd0 |].
      split; [constructor; [reflexivity | exact Hev0] |].
      cbn [runs]. rewrite Hq0. split; lia.
    + destruct (isinstance e Exception) eqn:Hcls.
      * destruct (IH (put_response E (Some (str e)) s1))
          as (Ht' & Henv' & Hresp' & Hexc' & d1 & Hd1 & Hev1 & Hle1 & _).
        cbn [put_response tools world response] in Ht', Henv', Hresp', Hd1.
        repeat apply conj.
        -- rewrite Ht'. exact Ht.
        -- rewrite Henv'. exact Henv.
        -- intros Hret _. apply Hresp'; [exact Hret | left; eauto].
        -- exact Hexc'.
        -- exists (EvAgentRun q :: d0 ++ d1)%list. split.
           ++ rewrite Hd1, Hd0, <- app_assoc. reflexivity.
           ++ split; [constructor; [reflexivity |];
                      apply Forall_app; split; assumption |].
              cbn [runs]. rewrite runs_app, Hq0. split; lia.
      * cbn [fst snd put_response tools world response].
        repeat apply conj; [exact Ht | exact Henv | intros H; discriminate H | |].
        -- intros e' [= <-]. exact Hcls.
        -- exists (EvAgentRun q :: d0). split; [exact Hd0 |].
           split; [constructor; [reflexivity | exact Hev0] |].
           cbn [runs]. rewrite Hq0. split; lia.
Qed.

End RetryExtras.

Section RetryCellExtras.

Variable E : Externals.

Lemma range_S (n : nat) : exists i l, range (S n) = i :: l.
Proof. unfold range. cbn [seq map]. eauto. Qed.

(** The retry cell, whatever the agent does. *)
Lemma retry_cell_any (n : nat) (q : string) (s : Session E) :
  (0 < n)%nat ->
  tools E (snd (retry_cell E n q s)) = tools E s /\
  environ E (world E (snd (retry_cell E n q s))) = environ E (world E s) /\
  (fst (retry_cell E n q s) = Returned tt ->
   is_Some (response E (snd (retry_cell E n q s)))) /\
  (forall e, fst (retry_cell E n q s) = Raised e ->
             isinstance e Exception = false) /\
  exists d,
    trace E (world E (snd (retry_cell E n q s))) =
      (trace E (world E s) ++ d)%list /\
    Forall (fun ev => agent_event ev = true) d /\
    (1 <= runs d <= n)%nat.
Proof.
  intros Hn. unfold retry_cell.
  assert (Hne : range n <> []).
  { destruct n; [lia |]. destruct (range_S n) as (i & l & ->). discriminate. }
  destruct (retry_loop_any E q (range n) s)
    as (Ht & Henv & Hresp & Hexc & d & Hd & Hev & Hle & Hge).
  rewrite range_length in Hle.
  repeat apply conj; [exact Ht | exact Henv | | exact Hexc |].
  - intros Hret. apply Hresp; [exact Hret | right; exact Hne].
  - exists d. repeat apply conj; [exact Hd | exact Hev | auto | exact Hle].
Qed.

(** X11. When the first attempt succeeds, the retry cell makes that one
    agent run and no other, and [response] is what the run returned. *)
Theorem retry_first_attempt_success (n : nat) (q : string) (s : Session E)
    (v : string) :
  (0 < n)%nat ->
  attempt E q 0 s = Returned v ->
  retry_cell E n q s =
    (Returned tt, put_response E (Some v) (snd (agent_executor_run E q s))) /\
  runs (trace E (world E (snd (retry_cell E n q s)))) =
    (runs (trace E (world E s)) + 1)%nat.
Proof.
  intros Hn Hv. unfold retry_cell.
  destruct n as [| m]; [lia |].
  destruct (range_S m) as (i & l & ->).
  rewrite for_in_retry_cons.
  unfold attempt in Hv. cbn [after_runs] in Hv.
  destruct (run_step E q s) as (_ & _ & d & Hd & Hq).
  destruct (agent_executor_run E q s) as [o s1]. cbn [fst snd] in *. subst o.
  split; [reflexivity |].
  cbn [fst snd put_response world]. rewrite Hd, runs_app. cbn [runs]. lia.
Qed.


(** X13. The only faults that leave a retry cell are those not derived
    from Exception. *)
Theorem retry_cell_raises_only_other_faults (n : nat) (q : string)
    (s : Session E) (e : PyExc) :
  fst (retry_cell E n q s) = Raised e ->
  isinstance e Exception = false.
Proof.
  intros Hraise.
  destruct (retry_loop_any E q (range n) s) as (_ & _ & _ & Hexc & _).
  apply Hexc. exact Hraise.
Qed.

(** What the print cell does when [response] is bound. *)
Lemma cell_print_bound (s : Session E) (r : string) :
  response E s = Some r ->
  cell_print E s =
    (Returned tt,
     set_world E (log E (EvDisplay (Render.dollar_to_USD r)) (world E s)) s).
Proof.
  intros Hr. unfold cell_print. rewrite Hr.
  unfold lift, printmd, display_Markdown, modify.
  rewrite RenderFacts.replace_dollar. reflexivity.
Qed.

(** X14. After a retry cell that completes, [response] is bound, so the
    print cell behind it cannot raise NameError: it displays the
    response with its dollar signs replaced. *)
Theorem print_after_retry (n : nat) (q : string) (s : Session E) :
  (0 < n)%nat ->
  fst (retry_cell E n q s) = Returned tt ->
  exists r,
    response E (snd (retry_cell E n q s)) = Some r /\
    cell_print E (snd (retry_cell E n q s)) =
      (Returned tt,
       set_world E
         (log E (EvDisplay (Render.dollar_to_USD r))
            (world E (snd (retry_cell E n q s))))
         (snd (retry_cell E n q s))).
Proof.
  intros Hn Hret.
  destruct (retry_cell_any n q s Hn) as (_ & _ & Hresp & _).
  destruct (Hresp Hret) as [r Hr].
  exists r. split; [exact Hr | apply cell_print_bound; exact Hr].
Qed.

(** X15. The cell's result does not tell an answer from a failure: a
    session whose first attempt returns [v] and a session whose every
    attempt raises, the last fault reading [v], both complete with
    [response] bound to [v]. *)
Theorem retry_masks_faults (n : nat) (q1 q2 : string) (s1 s2 : Session E)
    (es : nat -> PyExc) (v : string) :
  (0 < n)%nat ->
  attempt E q1 0 s1 = Returned v ->
  (forall i, (i < n)%nat ->
     attempt E q2 i s2 = Raised (es i) /\ isinstance (es i) Exception = true) ->
  str (es (n - 1)%nat) = v ->
  fst (retry_cell E n q1 s1) = fst (retry_cell E n q2 s2) /\
  response E (snd (retry_cell E n q1 s1)) = Some v /\
  response E (snd (retry_cell E n q2 s2)) = Some v.
Proof.
  intros Hn Hv Hes Hstr.
  rewrite (retry_exhausted E n q2 s2 es Hes).
  rewrite (retry_ends_at E n q1 s1 es 0 Hn) by (intros i Hi; lia).
  rewrite Hv. cbn [fst snd put_response response].
  repeat split.
  destruct n as [| m]; [lia |]. cbn [after_faults].
  replace (S m - 1)%nat with m in Hstr by lia. rewrite Hstr. reflexivity.
Qed.

End RetryCellExtras.

(** ** The notebook as a whole *)

Section NotebookExtras.

Variable E : Externals.

Lemma notebook_split (s : Session E) :
  notebook E s = (setup E ;;; answering E) s.
Proof.
  unfold notebook, setup, composition, answering, bind.
  destruct (lift E (cell_environment E) s) as [[[] | e1] s1]; [| reflexivity].
  destruct (lift E (cell_llm E) s1) as [[[] | e2] s2]; [| reflexivity].
  destruct (cell_agent E s2) as [[[] | e3] s3]; reflexivity.
Qed.

(** *** Bounds that hold whatever happens *)

Lemma within_same (s s' : Session E) :
  trace E (world E s') = trace E (world E s) -> within E 0 0 s s'.
Proof.
  intros H. exists []. rewrite H, app_nil_r.
  repeat split; [cbn; lia | cbn; lia | constructor].
Qed.

Lemma within_silent (n : nat) (s s' : Session E) (d : list Event) :
  trace E (world E s') = (trace E (world E s) ++ d)%list ->
  (runs d <= n)%nat -> displayed d = [] ->
  within E n 0 s s'.
Proof.
  intros Hd Hr Hs. exists d. rewrite Hs.
  repeat split; [exact Hd | exact Hr | cbn; lia | constructor].
Qed.

Lemma within_weaken (a b a' b' : nat) (s s' : Session E) :
  (a <= a')%nat -> (b <= b')%nat -> within E a b s s' -> within E a' b' s s'.
Proof.
  intros Ha Hb (d & Hd & Hr & Hl & Hc).
  exists d. repeat split; [exact Hd | lia | lia | exact Hc].
Qed.

Lemma within_trans (a b a' b' : nat) (s1 s2 s3 : Session E) :
  within E a b s1 s2 -> within E a' b' s2 s3 ->
  within E (a + a') (b + b') s1 s3.
Proof.
  intros (d & Hd & Hr & Hl & Hc) (d' & Hd' & Hr' & Hl' & Hc').
  exists (d ++ d')%list. rewrite Hd', Hd, app_assoc.
  rewrite runs_app, displayed_app, length_app.
  repeat split; [lia | lia | apply Forall_app; split; assumption].
Qed.

Lemma within_bind {A C : Type} (a b a' b' : nat)
    (m : Py (Session E) A) (f : A -> Py (Session E) C) :
  (forall s, within E a b s (snd (m s))) ->
  (forall x s, within E a' b' s (snd (f x s))) ->
  forall s, within E (a + a') (b + b') s (snd (bind m f s)).
Proof.
  intros Hm Hf s. unfold bind. specialize (Hm s).
  destruct (m s) as [[x | e] s1]; cbn [snd] in Hm |- *.
  - eapply within_trans; [exact Hm | apply Hf].
  - eapply within_weaken; [| | exact Hm]; lia.
Qed.

Lemma cell_llm_events (w : World E) :
  environ E (snd (cell_llm E w)) = environ E w /\
  exists d,
    trace E (snd (cell_llm E w)) = (trace E w ++ d)%list /\
    runs d = O /\ displayed d = [] /\
    (fst (cell_llm E w) = Returned tt ->
     d = [EvChatClient false; EvChatClient true]).
Proof.
  unfold cell_llm, bind, call, log, set_outside.
  destruct (AzureChatOpenAI E false (environ E w) (outside E w))
    as [[[] | e] x1]; cbn [fst snd trace environ outside].
  - destruct (AzureChatOpenAI E true (environ E w) x1) as [[[] | e] x2];
      cbn [fst snd trace environ outside];
      (split; [reflexivity |]); eexists;
      (split; [rewrite <- !app_assoc; reflexivity |]);
      repeat split; intros H; discriminate H.
  - split; [reflexivity |]. eexists.
    split; [rewrite <- !app_assoc; reflexivity |].
    repeat split. intros H; discriminate H.
Qed.

Lemma lift_environment_within (s : Session E) :
  within E 0 0 s (snd (lift E (cell_environment E) s)).
Proof.
  apply within_same. unfold lift.
  pose proof (cell_environment_trace E (world E s)) as H.
  destruct (cell_environment E (world E s)) as [o w']. exact H.
Qed.

Lemma lift_llm_within (s : Session E) :
  within E 0 0 s (snd (lift E (cell_llm E) s)).
Proof.
  unfold lift.
  destruct (cell_llm_events (world E s)) as (_ & d & Hd & Hr & Hs & _).
  destruct (cell_llm E (world E s)) as [o w']. cbn [fst snd] in *.
  apply (within_silent 0 _ _ d); [exact Hd | lia | exact Hs].
Qed.

Lemma cell_agent_within (s : Session E) :
  within E 0 0 s (snd (cell_agent E s)).
Proof.
  destruct (cell_agent_effect E s) as (_ & _ & Htr).
  eapply (within_silent 0); [exact Htr | |];
    destruct (fst (cell_agent E s)); cbn; lia || reflexivity.
Qed.





End NotebookExtras.

Section NotebookShape.

Variable E : Externals.

(** The setup cells, whatever they give: no agent run, no display. *)
Lemma setup_within (s : Session E) : within E 0 0 s (snd (setup E s)).
Proof.
  unfold setup, composition.
  apply (within_bind E 0 0 0 0); [| intros _; apply cell_agent_within].
  apply (within_bind E 0 0 0 0); [apply lift_environment_within |].
  intros _. apply lift_llm_within.
Qed.

(** The setup cells when they get through. *)
Lemma setup_returns (s s1 : Session E) :
  setup E s = (Returned tt, s1) ->
  tools E s1 = [MyBingSearch_new (Some 5)] /\
  response E s1 = response E s /\
  trace E (world E s1) =
    (trace E (world E s) ++
     [EvChatClient false; EvChatClient true; EvInitAgent ["@bing"]])%list.
Proof.
  unfold setup, composition, bind, lift.
  pose proof (cell_environment_trace E (world E s)) as Henv.
  destruct (cell_environment E (world E s)) as [[[] | e1] w1];
    [| discriminate].
  cbn [fst snd world set_world tools response] in *.
  destruct (cell_llm_events E w1) as (_ & d & Hd & _ & _ & Hok).
  destruct (cell_llm E w1) as [[[] | e2] w2]; [| discriminate].
  cbn [fst snd world set_world tools response] in *.
  specialize (Hok eq_refl). subst d.
  set (s2 := set_world E w2 (set_world E w1 s)).
  destruct (cell_agent_effect E s2) as (Ht & Hr & Htr).
  destruct (cell_agent E s2) as [[[] | e3] s3]; [| discriminate].
  intros [= <-]. cbn [fst snd] in *.
  split; [exact Ht |]. split; [exact Hr |].
  rewrite Htr. subst s2. cbn [world set_world].
  rewrite Hd, Henv, <- app_assoc. reflexivity.
Qed.

(** The asking and printing cells when they get through: the sessions
    the two retry cells leave, and what is displayed behind each. *)
Lemma answering_returns (s s' : Session E) :
  answering E s = (Returned tt, s') ->
  exists s2 s3 r1 r2 d1 d2,
    retry_cell E 2 QUESTION_1 s = (Returned tt, s2) /\
    response E s2 = Some r1 /\
    trace E (world E s2) = (trace E (world E s) ++ d1)%list /\
    retry_cell E 3 QUESTION_2
      (set_world E (log E (EvDisplay (Render.dollar_to_USD r1)) (world E s2)) s2)
      = (Returned tt, s3) /\
    response E s3 = Some r2 /\
    trace E (world E s3) =
      (trace E (world E s2) ++ [EvDisplay (Render.dollar_to_USD r1)] ++ d2)%list /\
    s' = set_world E
           (log E (EvDisplay (Render.dollar_to_USD (prompt_template E)))
              (log E (EvDisplay (Render.dollar_to_USD r2)) (world E s3))) s3 /\
    Forall (fun ev => agent_event ev = true) d1 /\
    Forall (fun ev => agent_event ev = true) d2 /\
    (1 <= runs d1 <= 2)%nat /\ (1 <= runs d2 <= 3)%nat /\
    tools E s3 = tools E s.
Proof.
  unfold answering, bind.
  destruct (retry_cell_any E 2 QUESTION_1 s ltac:(lia))
    as (Ht1 & _ & Hresp1 & _ & d1 & Hd1 & Hev1 & Hruns1).
  destruct (retry_cell E 2 QUESTION_1 s) as [[[] | e1] s2]; [| discriminate].
  cbn [fst snd] in *. destruct (Hresp1 eq_refl) as [r1 Hr1].
  rewrite (cell_print_bound E s2 r1 Hr1).
  set (s2' := set_world E (log E (EvDisplay (Render.dollar_to_USD r1))
                             (world E s2)) s2).
  destruct (retry_cell_any E 3 QUESTION_2 s2' ltac:(lia))
    as (Ht2 & _ & Hresp2 & _ & d2 & Hd2 & Hev2 & Hruns2).
  destruct (retry_cell E 3 QUESTION_2 s2') as [[[] | e2] s3] eqn:Hc2;
    [| discriminate].
  cbn [fst snd] in *. destruct (Hresp2 eq_refl) as [r2 Hr2].
  rewrite (cell_print_bound E s3 r2 Hr2).
  unfold lift, printmd, display_Markdown, modify.
  rewrite RenderFacts.replace_dollar.
  cbn [fst snd world set_world].
  intros [= <-]. exists s2, s3, r1, r2, d1, d2.
  subst s2'. cbn [world set_world log trace tools] in Hd2, Ht2.
  repeat apply conj; try reflexivity; try assumption; try lia.
  - rewrite Hd2, <- app_assoc. reflexivity.
  - rewrite Ht2. exact Ht1.
Qed.

(** X17. A notebook run that completes has this shape: the chat client
    is built twice (without streaming, then with it) and the agent is
    built from the one tool; the first retry cell completes after one
    or two agent runs and the response it leaves is what is displayed
    next, dollar signs replaced; the second retry cell, run from there,
    completes after one to three agent runs and the response it leaves
    is displayed next; the prompt template is displayed last.  The
    response at the end is the second cell's, the tool list the one
    tool of the agent cell. *)
Theorem notebook_completes_shape (s s' : Session E) :
  notebook E s = (Returned tt, s') ->
  exists s1 s2 s3 r1 r2 d1 d2,
    setup E s = (Returned tt, s1) /\
    retry_cell E 2 QUESTION_1 s1 = (Returned tt, s2) /\
    response E s2 = Some r1 /\
    trace E (world E s2) = (trace E (world E s1) ++ d1)%list /\
    retry_cell E 3 QUESTION_2
      (set_world E (log E (EvDisplay (Render.dollar_to_USD r1)) (world E s2)) s2)
      = (Returned tt, s3) /\
    response E s3 = Some r2 /\
    trace E (world E s3) =
      (trace E (world E s2) ++ [EvDisplay (Render.dollar_to_USD r1)] ++ d2)%list /\
    trace E (world E s') =
      (trace E (world E s) ++
       [EvChatClient false; EvChatClient true; EvInitAgent ["@bing"]] ++
       d1 ++ [EvDisplay (Render.dollar_to_USD r1)] ++
       d2 ++ [EvDisplay (Render.dollar_to_USD r2);
              EvDisplay (Render.dollar_to_USD (prompt_template E))])%list /\
    Forall (fun ev => agent_event ev = true) d1 /\
    Forall (fun ev => agent_event ev = true) d2 /\
    (1 <= runs d1 <= 2)%nat /\ (1 <= runs d2 <= 3)%nat /\
    response E s' = Some r2 /\
    tools E s' = [MyBingSearch_new (Some 5)].
Proof.
  rewrite notebook_split. unfold bind.
  destruct (setup E s) as [[[] | e0] s1] eqn:Hsetup; [| discriminate].
  destruct (setup_returns s s1 Hsetup) as (Ht & _ & Htr).
  intros Hans.
  destruct (answering_returns s1 s' Hans)
    as (s2 & s3 & r1 & r2 & d1 & d2 & Hc1 & Hresp1 & Hd1 & Hc2 & Hresp2 & Hd2
        & -> & Hev1 & Hev2 & Hr1 & Hr2 & Htools).
  exists s1, s2, s3, r1, r2, d1, d2.
  cbn [world set_world log trace response tools].
  repeat apply conj; try reflexivity; try assumption; try lia.
  - rewrite Hd2, Hd1, Htr, <- !app_assoc. reflexivity.
  - rewrite Htools. exact Ht.
Qed.

(** X18. A fault in the setup cells (environment, chat client, agent)
    ends the notebook with that fault before any agent run and before
    anything is displayed. *)
Theorem setup_fault_is_fatal (s s' : Session E) (e : PyExc) :
  setup E s = (Raised e, s') ->
  notebook E s = (Raised e, s') /\
  runs (trace E (world E s')) = runs (trace E (world E s)) /\
  displayed (trace E (world E s')) = displayed (trace E (world E s)).
Proof.
  intros Hsetup. rewrite notebook_split. unfold bind. rewrite Hsetup.
  split; [reflexivity |].
  destruct (setup_within s) as (d & Hd & Hr & Hl & _).
  rewrite Hsetup in Hd. cbn [snd] in Hd.
  rewrite Hd, runs_app, displayed_app.
  destruct (displayed d); [| cbn in Hl; lia].
  rewrite app_nil_r. split; [lia | reflexivity].
Qed.

End NotebookShape.

(** * The further properties on concrete runs *)

Module MoreRuns.
Import Script.

Lemma printmd_keeps_dollar_free_text_witness :
  printmd E_serving "no money here" (bare_world E_serving []) =
    (Returned tt,
     log E_serving (EvDisplay "no money here") (bare_world E_serving [])).
Proof.
  apply (printmd_keeps_dollar_free_text E_serving "no money here"
           (bare_world E_serving [])).
  reflexivity.
Defined.

Lemma cell_environment_returns_iff_witness :
  fst (cell_environment E_serving (bare_world E_serving [])) = Returned tt.
Proof.
  apply (proj2 (cell_environment_returns_iff E_serving
                  (bare_world E_serving []))).
  unfold azure_keys. repeat constructor; vm_compute; eexists; reflexivity.
Defined.

Lemma cell_environment_copies_witness :
  let w := bare_world E_serving [] in
  let w' := snd (cell_environment E_serving w) in
  environ E_serving w' !! "OPENAI_API_BASE"
    = environ E_serving w !! "AZURE_OPENAI_ENDPOINT" /\
  environ E_serving w' !! "OPENAI_API_KEY"
    = environ E_serving w !! "AZURE_OPENAI_API_KEY" /\
  environ E_serving w' !! "OPENAI_API_VERSION"
    = environ E_serving w !! "AZURE_OPENAI_API_VERSION" /\
  environ E_serving w' !! "OPENAI_API_TYPE" = Some "azure" /\
  (forall key, ~ In key openai_keys ->
     environ E_serving w' !! key = environ E_serving w !! key) /\
  trace E_serving w' = trace E_serving w /\
  outside E_serving w' = outside E_serving w.
Proof.
  intros w.
  apply (cell_environment_copies E_serving w).
  vm_compute. reflexivity.
Defined.


Lemma cell_environment_idempotent_witness :
  let w := bare_world E_serving [] in
  cell_environment E_serving (snd (cell_environment E_serving w)) =
    (Returned tt, snd (cell_environment E_serving w)).
Proof.
  intros w. apply (cell_environment_idempotent E_serving w).
  vm_compute. reflexivity.
Defined.

Lemma retry_first_attempt_success_witness :
  let s := ready E_serving full_env [Final "Supply is tight."] in
  retry_cell E_serving 2 QUESTION_1 s =
    (Returned tt,
     put_response E_serving (Some "Supply is tight.")
       (snd (agent_executor_run E_serving QUESTION_1 s))) /\
  runs (trace E_serving (world E_serving
          (snd (retry_cell E_serving 2 QUESTION_1 s)))) =
    (runs (trace E_serving (world E_serving s)) + 1)%nat.
Proof.
  intros s.
  apply (retry_first_attempt_success E_serving 2 QUESTION_1 s
           "Supply is tight."); [lia | vm_compute; reflexivity].
Defined.


Lemma retry_cell_raises_only_other_faults_witness :
  let s := ready E_serving full_env [Fault parse_fault; Fault interrupt] in
  fst (retry_cell E_serving 2 QUESTION_1 s) = Raised interrupt /\
  isinstance interrupt Exception = false.
Proof.
  intros s. split; [vm_compute; reflexivity |].
  apply (retry_cell_raises_only_other_faults E_serving 2 QUESTION_1 s interrupt).
  vm_compute. reflexivity.
Defined.

Lemma print_after_retry_witness :
  let s := ready E_serving full_env [Final "Brent is at $100."] in
  exists r,
    response E_serving (snd (retry_cell E_serving 2 QUESTION_1 s)) = Some r /\
    cell_print E_serving (snd (retry_cell E_serving 2 QUESTION_1 s)) =
      (Returned tt,
       set_world E_serving
         (log E_serving (EvDisplay (Render.dollar_to_USD r))
            (world E_serving (snd (retry_cell E_serving 2 QUESTION_1 s))))
         (snd (retry_cell E_serving 2 QUESTION_1 s))).
Proof.
  intros s. apply (print_after_retry E_serving 2 QUESTION_1 s);
    [lia | vm_compute; reflexivity].
Defined.

Lemma retry_masks_faults_witness :
  let s1 := ready E_serving full_env [Final "Could not parse LLM output"] in
  let s2 := ready E_serving full_env [] in
  fst (retry_cell E_serving 2 QUESTION_1 s1)
    = fst (retry_cell E_serving 2 QUESTION_1 s2) /\
  response E_serving (snd (retry_cell E_serving 2 QUESTION_1 s1))
    = Some "Could not parse LLM output" /\
  response E_serving (snd (retry_cell E_serving 2 QUESTION_1 s2))
    = Some "Could not parse LLM output".
Proof.
  intros s1 s2.
  apply (retry_masks_faults E_serving 2 QUESTION_1 QUESTION_1 s1 s2
           (fun _ => parse_fault) "Could not parse LLM output").
  - lia.
  - vm_compute. reflexivity.
  - intros i Hi. destruct i as [| [| i]];
      [split; vm_compute; reflexivity | split; vm_compute; reflexivity | lia].
  - reflexivity.
Defined.

Lemma notebook_completes_shape_witness :
  let s := start E_serving full_env
             [search_then_answer "oil supply" "Brent is at $100."] in
  exists s1 s2 s3 r1 r2 d1 d2,
    setup E_serving s = (Returned tt, s1) /\
    retry_cell E_serving 2 QUESTION_1 s1 = (Returned tt, s2) /\
    response E_serving s2 = Some r1 /\
    trace E_serving (world E_serving s2)
      = (trace E_serving (world E_serving s1) ++ d1)%list /\
    retry_cell E_serving 3 QUESTION_2
      (set_world E_serving
         (log E_serving (EvDisplay (Render.dollar_to_USD r1))
            (world E_serving s2)) s2)
      = (Returned tt, s3) /\
    response E_serving s3 = Some r2 /\
    trace E_serving (world E_serving s3) =
      (trace E_serving (world E_serving s2) ++
       [EvDisplay (Render.dollar_to_USD r1)] ++ d2)%list /\
    trace E_serving (world E_serving (snd (notebook E_serving s))) =
      (trace E_serving (world E_serving s) ++
       [EvChatClient false; EvChatClient true; EvInitAgent ["@bing"]] ++
       d1 ++ [EvDisplay (Render.dollar_to_USD r1)] ++
       d2 ++ [EvDisplay (Render.dollar_to_USD r2);
              EvDisplay (Render.dollar_to_USD (prompt_template E_serving))])%list /\
    Forall (fun ev => agent_event ev = true) d1 /\
    Forall (fun ev => agent_event ev = true) d2 /\
    (1 <= runs d1 <= 2)%nat /\ (1 <= runs d2 <= 3)%nat /\
    response E_serving (snd (notebook E_serving s)) = Some r2 /\
    tools E_serving (snd (notebook E_serving s)) = [MyBingSearch_new (Some 5)].
Proof.
  intros s.
  apply (notebook_completes_shape E_serving s (snd (notebook E_serving s))).
  vm_compute. reflexivity.
Defined.

Lemma setup_fault_is_fatal_witness :
  let s := start E_serving ∅ [] in
  notebook E_serving s =
    (Raised (key_error "AZURE_OPENAI_ENDPOINT"), snd (setup E_serving s)) /\
  runs (trace E_serving (world E_serving (snd (setup E_serving s))))
    = runs (trace E_serving (world E_serving s)) /\
  displayed (trace E_serving (world E_serving (snd (setup E_serving s))))
    = displayed (trace E_serving (world E_serving s)).
Proof.
  intros s.
  apply (setup_fault_is_fatal E_serving s (snd (setup E_serving s))
           (key_error "AZURE_OPENAI_ENDPOINT")).
  vm_compute. reflexivity.
Defined.

End MoreRuns.

(** * Where configuration faults come up *)

Section ConfigFaults.

Variable E : Externals.









End ConfigFaults.

(** * The revised claims on concrete runs *)

Module LibraryRuns.
Import Script.




End LibraryRuns.
